(** * iam_auto_assume: a shallow embedding of [iam_auto_assume.py]

    The script talks to AWS through boto3.  Its six functions are embedded
    as computations in a small monad that threads the history of the calls
    made so far and may end in a Python exception.  The remote service is an
    arbitrary deterministic environment: what a call answers is a function
    of the history.  Python values that come back from IAM (the trust policy
    document) are modelled as an untyped value tree, because the script
    inspects them with [dict.get], [in] and [list.append]. *)

From Stdlib Require Import String Ascii List ZArith Bool Lia.
Import ListNotations.
Local Open Scope string_scope.
Local Open Scope list_scope.
Set Warnings "-register-all".

(** ** Python values *)

(** The JSON-shaped fragment of Python's values: what boto3 hands back for
    [AssumeRolePolicyDocument].  A [dict] keeps its insertion order, so it is
    an association list; a lookup finds the first binding of the key. *)
Inductive pyval : Type :=
| PNone
| PBool (b : bool)
| PInt (n : Z)
| PStr (s : string)
| PList (items : list pyval)
| PDict (items : list (string * pyval)).

(** [type(v).__name__] *)
Definition type_name (v : pyval) : string :=
  match v with
  | PNone => "NoneType"
  | PBool _ => "bool"
  | PInt _ => "int"
  | PStr _ => "str"
  | PList _ => "list"
  | PDict _ => "dict"
  end.

(** ** Exceptions

    Every class below derives from [Exception].  [ClientError] is
    [botocore.exceptions.ClientError] (the service answered with an error);
    [BotoCoreError] stands for the other botocore failures, which are not
    subclasses of [ClientError] (no endpoint connection, no credentials,
    time-outs, ...).  Each carries the text [str(e)] prints, except
    [KeyError], which carries the missing key. *)
Inductive exn : Type :=
| ClientError (message : string)
| BotoCoreError (message : string)
| KeyError (key : string)
| TypeError (message : string)
| AttributeError (message : string).

(** [str(e)] *)
Definition exn_str (e : exn) : string :=
  match e with
  | ClientError m | BotoCoreError m | TypeError m | AttributeError m => m
  | KeyError k => "'" ++ k ++ "'"
  end.

(** [isinstance(e, botocore.exceptions.ClientError)] *)
Definition is_ClientError (e : exn) : bool :=
  match e with ClientError _ => true | _ => false end.

Definition no_attribute (v : pyval) (attr : string) : exn :=
  AttributeError ("'" ++ type_name v ++ "' object has no attribute '" ++ attr ++ "'").

(** ** Operations of Python the script uses *)

Fixpoint assoc (k : string) (kvs : list (string * pyval)) : option pyval :=
  match kvs with
  | [] => None
  | (k', v) :: rest => if String.eqb k k' then Some v else assoc k rest
  end.

(** [d.get(k, default)] *)
Definition py_get (d : pyval) (k : string) (default : pyval) : exn + pyval :=
  match d with
  | PDict kvs => inr (match assoc k kvs with Some v => v | None => default end)
  | _ => inl (no_attribute d "get")
  end.

(** [d[k]] with a string key *)
Definition py_getitem (d : pyval) (k : string) : exn + pyval :=
  match d with
  | PDict kvs => match assoc k kvs with Some v => inr v | None => inl (KeyError k) end
  | PStr _ => inl (TypeError "string indices must be integers, not 'str'")
  | PList _ => inl (TypeError "list indices must be integers or slices, not str")
  | _ => inl (TypeError ("'" ++ type_name d ++ "' object is not subscriptable"))
  end.

(** [l.append(x)]: the list object is changed in place; the model returns
    the list as it is afterwards. *)
Definition py_append (l x : pyval) : exn + pyval :=
  match l with
  | PList items => inr (PList (items ++ [x]))
  | _ => inl (no_attribute l "append")
  end.

(** The dict after the object bound to [k] has been changed in place into
    [v]: the binding keeps its position. *)
Fixpoint rebind (k : string) (v : pyval) (kvs : list (string * pyval))
  : list (string * pyval) :=
  match kvs with
  | [] => []
  | (k', v') :: rest =>
      if String.eqb k k' then (k', v) :: rest else (k', v') :: rebind k v rest
  end.

Definition py_rebind (d : pyval) (k : string) (v : pyval) : pyval :=
  match d with
  | PDict kvs => PDict (rebind k v kvs)
  | _ => d
  end.

(** [for x in v]: the values the loop visits. *)
Definition py_iter (v : pyval) : exn + list pyval :=
  match v with
  | PList items => inr items
  | PDict kvs => inr (map (fun kv => PStr (fst kv)) kvs)
  | PStr s => inr (map (fun c => PStr (String c EmptyString)) (list_ascii_of_string s))
  | _ => inl (TypeError ("'" ++ type_name v ++ "' object is not iterable"))
  end.

(** [v == s] for a string [s] *)
Definition py_eq_str (v : pyval) (s : string) : bool :=
  match v with PStr t => String.eqb t s | _ => false end.

(** [s in t] on strings: [s] occurs in [t] as a substring. *)
Fixpoint is_substring (s t : string) : bool :=
  if String.prefix s t then true
  else match t with
       | EmptyString => false
       | String _ t' => is_substring s t'
       end.

(** The script's [current_role_arn] is either a string or [None]. *)
Definition arn_val (x : option string) : pyval :=
  match x with Some s => PStr s | None => PNone end.

(** [x == v] for such an [x] *)
Definition arn_eq (x : option string) (v : pyval) : bool :=
  match x, v with
  | Some s, PStr t => String.eqb s t
  | None, PNone => true
  | _, _ => false
  end.

(** [x in c] for such an [x] *)
Definition py_in (x : option string) (c : pyval) : exn + bool :=
  match c with
  | PStr t =>
      match x with
      | Some s => inr (is_substring s t)
      | None => inl (TypeError "'in <string>' requires string as left operand, not NoneType")
      end
  | PList items => inr (existsb (arn_eq x) items)
  | PDict kvs =>
      match x with
      | Some s => inr (existsb (fun kv => String.eqb s (fst kv)) kvs)
      | None => inr false
      end
  | _ => inl (TypeError ("argument of type '" ++ type_name c ++ "' is not iterable"))
  end.

(** [f"{x}"] for such an [x] *)
Definition fmt (x : option string) : string :=
  match x with Some s => s | None => "None" end.

(** ** The service's answers

    boto3 returns dicts of a fixed shape; the script reads them with
    constant keys ([identity['Account']], [response['Role']], ...), which
    are always there, so the answers are records. *)

Record Identity : Type := { UserId : string; Account : string; Arn : string }.

Record RoleInfo : Type := { AssumeRolePolicyDocument : pyval }.
Record GetRoleResponse : Type := { Role : RoleInfo }.

Record CredentialsInfo : Type :=
  { AccessKeyId : string; SecretAccessKey : string;
    SessionToken : string; Expiration : string }.
Record AssumeRoleResponse : Type := { Credentials : CredentialsInfo }.

(** The text [json.dumps] produces, represented by the document it encodes:
    the service reads the text back into that document. *)
Inductive json_text : Type := JsonText (document : pyval).

Definition json_dumps (v : pyval) : json_text := JsonText v.

(** ** Histories and environments *)

(** One entry per effect, in the order they happen, each remote call with
    what it answered. *)
Inductive event : Type :=
| Boto3Client (service : string) (raised : option exn)
| GetCallerIdentity (answer : exn + Identity)
| GetRole (RoleName : string) (answer : exn + GetRoleResponse)
| UpdateAssumeRolePolicy (RoleName : string) (PolicyDocument : json_text)
    (raised : option exn)
| AssumeRole (RoleArn RoleSessionName : string) (answer : exn + AssumeRoleResponse)
| Sleep (seconds : Z)
| Print (line : string).

Definition history := list event.

(** The world outside the script: every answer is a function of the history
    so far and of the call's arguments. *)
Record env : Type := {
  client_r : history -> string -> option exn;
  get_caller_identity_r : history -> exn + Identity;
  get_role_r : history -> string -> exn + GetRoleResponse;
  update_assume_role_policy_r : history -> string -> json_text -> option exn;
  assume_role_r : history -> string -> string -> exn + AssumeRoleResponse
}.

(** ** The monad: a history threaded through, and an exception or a value *)

Definition M (A : Type) : Type := history -> (exn + A) * history.

Definition ret {A} (a : A) : M A := fun h => (inr a, h).

Definition bind {A B} (m : M A) (k : A -> M B) : M B :=
  fun h => match m h with
           | (inr a, h') => k a h'
           | (inl e, h') => (inl e, h')
           end.

(** A pure step that may raise. *)
Definition lift {A} (r : exn + A) : M A := fun h => (r, h).

(** [try: m  except <classes accepted by catches> as e: handler e] *)
Definition try_except {A} (m : M A) (catches : exn -> bool) (handler : exn -> M A) : M A :=
  fun h => match m h with
           | (inl e, h') => if catches e then handler e h' else (inl e, h')
           | r => r
           end.

(** [except Exception] *)
Definition Exception (e : exn) : bool := true.

Declare Scope py_scope.
Delimit Scope py_scope with py.
Notation "x <- m ;; k" := (bind m (fun x => k))
  (at level 100, m at next level, right associativity) : py_scope.
Notation "m ;; k" := (bind m (fun _ => k))
  (at level 100, right associativity) : py_scope.
Local Open Scope py_scope.

(** Sequencing of pure steps that may raise. *)
Definition and_then {A B} (r : exn + A) (k : A -> exn + B) : exn + B :=
  match r with inl e => inl e | inr a => k a end.

Notation "'let?' x ':=' r 'in' k" := (and_then r (fun x => k))
  (at level 10, x name, r at level 100, k at level 200).

(** ** The script *)

Section Script.

Variable aws : env.

(** *** Effects *)

(** [boto3.client(service)]; the client object carries no data the script
    looks at, so the model returns nothing. *)
Definition boto3_client (service : string) : M unit := fun h =>
  let r := client_r aws h service in
  (match r with Some e => inl e | None => inr tt end, h ++ [Boto3Client service r]).

Definition sts_get_caller_identity : M Identity := fun h =>
  let r := get_caller_identity_r aws h in (r, h ++ [GetCallerIdentity r]).

Definition iam_get_role (RoleName : string) : M GetRoleResponse := fun h =>
  let r := get_role_r aws h RoleName in (r, h ++ [GetRole RoleName r]).

Definition iam_update_assume_role_policy (RoleName : string) (PolicyDocument : json_text)
  : M unit := fun h =>
  let r := update_assume_role_policy_r aws h RoleName PolicyDocument in
  (match r with Some e => inl e | None => inr tt end,
   h ++ [UpdateAssumeRolePolicy RoleName PolicyDocument r]).

Definition sts_assume_role (RoleArn RoleSessionName : string) : M AssumeRoleResponse :=
  fun h =>
  let r := assume_role_r aws h RoleArn RoleSessionName in
  (r, h ++ [AssumeRole RoleArn RoleSessionName r]).

Definition print (line : string) : M unit := fun h => (inr tt, h ++ [Print line]).

Definition time_sleep (seconds : Z) : M unit := fun h => (inr tt, h ++ [Sleep seconds]).

(** *** get_current_account_id *)

Definition get_current_account_id : M (option string) :=
  try_except
    (boto3_client "sts" ;;
     identity <- sts_get_caller_identity ;;
     ret (Some (Account identity)))
    Exception
    (fun e =>
       print ("An error occurred while retrieving the current account ID: " ++ exn_str e)%string ;;
       ret None).

(** *** construct_role_arn *)

Definition construct_role_arn (role_name : string) : M string :=
  account_id <- get_current_account_id ;;
  ret ("arn:aws:iam::" ++ fmt account_id ++ ":role/" ++ role_name)%string.

(** *** get_current_role_arn *)

Definition get_current_role_arn : M (option string) :=
  try_except
    (boto3_client "sts" ;;
     identity <- sts_get_caller_identity ;;
     ret (Some (Arn identity)))
    Exception
    (fun e =>
       print ("An error occurred while retrieving the current role ARN: " ++ exn_str e)%string ;;
       ret None).

(** *** update_trust_policy *)

(** The test of the loop's [if]:
    [statement.get("Effect") == "Allow" and
     current_role_arn in statement.get("Principal", {}).get("AWS", [])];
    [and] evaluates its right operand only when the left one holds. *)
Definition allows (current_role_arn : option string) (statement : pyval) : exn + bool :=
  let? effect := py_get statement "Effect" PNone in
  if py_eq_str effect "Allow" then
    let? principal := py_get statement "Principal" (PDict []) in
    let? principal_aws := py_get principal "AWS" (PList []) in
    py_in current_role_arn principal_aws
  else inr false.

(** The [for] loop: [inr true] when some statement passes the test (the
    loop's body then prints and returns), [inr false] when the loop runs to
    its end, [inl e] when evaluating the test raises first. *)
Fixpoint scan (current_role_arn : option string) (statements : list pyval) : exn + bool :=
  match statements with
  | [] => inr false
  | statement :: rest =>
      let? hit := allows current_role_arn statement in
      if hit then inr true else scan current_role_arn rest
  end.

Definition new_statement (current_role_arn : option string) : pyval :=
  PDict [("Effect", PStr "Allow");
         ("Principal", PDict [("AWS", arn_val current_role_arn)]);
         ("Action", PStr "sts:AssumeRole")].

(** [trust_policy["Statement"].append(new_statement)]: the document after
    the list it holds under ["Statement"] has grown by one. *)
Definition append_statement (trust_policy statement : pyval) : exn + pyval :=
  let? statements := py_getitem trust_policy "Statement" in
  let? statements' := py_append statements statement in
  inr (py_rebind trust_policy "Statement" statements').

Definition update_trust_policy (target_role_name : string) (current_role_arn : option string)
  : M unit :=
  boto3_client "iam" ;;
  try_except
    (response <- iam_get_role target_role_name ;;
     let trust_policy := AssumeRolePolicyDocument (Role response) in
     found <- lift (let? statement_value := py_get trust_policy "Statement" (PList []) in
                    let? statements := py_iter statement_value in
                    scan current_role_arn statements) ;;
     if found : bool then
       print ("The role " ++ fmt current_role_arn ++ " is already allowed to assume "
              ++ target_role_name ++ ".")%string
     else
       trust_policy' <- lift (append_statement trust_policy (new_statement current_role_arn)) ;;
       iam_update_assume_role_policy target_role_name (json_dumps trust_policy') ;;
       print ("Updated the trust policy for role " ++ target_role_name ++ " to allow "
              ++ fmt current_role_arn ++ " to assume it.")%string ;;
       print "Waiting 10s for the trust policy update to propagate..." ;;
       time_sleep 10)
    Exception
    (fun e => print ("An error occurred: " ++ exn_str e)%string).

(** *** assume_role *)

Definition assume_role (role_arn : string) : M (option CredentialsInfo) :=
  boto3_client "sts" ;;
  try_except
    (assumed_role <- sts_assume_role role_arn "TestRoleSession" ;;
     ret (Some (Credentials assumed_role)))
    is_ClientError
    (fun e => print ("Failed to assume role: " ++ exn_str e)%string ;; ret None).

(** *** auto_assume *)

Definition auto_assume (role_name : string) : M (option CredentialsInfo) :=
  current_role_arn <- get_current_role_arn ;;
  update_trust_policy role_name current_role_arn ;;
  role_arn <- construct_role_arn role_name ;;
  credentials <- assume_role role_arn ;;
  ret credentials.

End Script.

(** ** Reading a history *)

Definition is_update_assume_role_policy (ev : event) : bool :=
  match ev with UpdateAssumeRolePolicy _ _ _ => true | _ => false end.

(** No [update_assume_role_policy] call among the events. *)
Definition no_write (tr : history) : Prop :=
  existsb is_update_assume_role_policy tr = false.

(** What creating the STS client and asking it who the caller is gives,
    when started after [h]. *)
Definition sts_lookup (aws : env) (h : history) : exn + Identity :=
  match client_r aws h "sts" with
  | Some e => inl e
  | None => get_caller_identity_r aws (h ++ [Boto3Client "sts" None])
  end.

(** ** Reading a trust policy *)

Definition statements_of (trust_policy : pyval) : option (list pyval) :=
  match trust_policy with
  | PDict kvs => match assoc "Statement" kvs with
                 | Some (PList sts) => Some sts
                 | _ => None
                 end
  | _ => None
  end.

Definition effect_of (statement : pyval) : option pyval :=
  match statement with PDict kvs => assoc "Effect" kvs | _ => None end.

Definition principal_aws (statement : pyval) : option pyval :=
  match statement with
  | PDict kvs => match assoc "Principal" kvs with
                 | Some (PDict p) => assoc "AWS" p
                 | _ => None
                 end
  | _ => None
  end.

Definition has_effect (effect : string) (statement : pyval) : bool :=
  match effect_of statement with Some (PStr e) => String.eqb e effect | _ => false end.

(** [Principal.AWS] contains the ARN the way the script's test reads it: a
    string that has the ARN inside it, or a list with the ARN as an
    element. *)
Definition mentions (arn : string) (statement : pyval) : bool :=
  match principal_aws statement with
  | Some (PStr t) => is_substring arn t
  | Some (PList l) => existsb (arn_eq (Some arn)) l
  | _ => false
  end.

Definition allow_mentions (arn : string) (statement : pyval) : bool :=
  has_effect "Allow" statement && mentions arn statement.

(** The number of Allow statements whose [Principal.AWS] contains the ARN. *)
Definition count_allow (arn : string) (statements : list pyval) : nat :=
  length (filter (allow_mentions arn) statements).

(** A statement the loop's test can read: a dict whose ["Principal"], when
    there is one, is a dict whose ["AWS"], when there is one, is a string or
    a list.  Every statement of the documented shape
    [{Effect, Principal: {AWS: string | string[]}, Action}] is one, and so
    are statements that name a [Service] or [Federated] principal. *)
Definition scannable (statement : pyval) : bool :=
  match statement with
  | PDict kvs =>
      match assoc "Principal" kvs with
      | None => true
      | Some (PDict p) =>
          match assoc "AWS" p with
          | None | Some (PStr _) | Some (PList _) => true
          | _ => false
          end
      | _ => false
      end
  | _ => false
  end.

(** ** A mock of the service

    An in-memory stand-in for STS and IAM, as a test would set it up: a fixed
    answer to [get_caller_identity], roles with their trust policies, an
    optional failure of every write, and an answer to [assume_role] per role
    ARN.  A write that succeeds replaces the role's document, and [get_role]
    returns the latest one. *)
Record mock : Type := {
  mock_identity : exn + Identity;
  mock_roles : list (string * pyval);
  mock_update : option exn;
  mock_assume : string -> exn + AssumeRoleResponse
}.

Fixpoint stored (name : string) (h : history) (current : option pyval) : option pyval :=
  match h with
  | [] => current
  | UpdateAssumeRolePolicy n (JsonText d) None :: rest =>
      stored name rest (if String.eqb n name then Some d else current)
  | _ :: rest => stored name rest current
  end.

(** The trust policy of role [name] after history [h]. *)
Definition trust_policy_of (m : mock) (h : history) (name : string) : option pyval :=
  stored name h (assoc name (mock_roles m)).

Definition NoSuchEntity : exn :=
  ClientError "An error occurred (NoSuchEntity) when calling the operation: The role cannot be found.".

Definition mock_env (m : mock) : env := {|
  client_r := fun _ _ => None;
  get_caller_identity_r := fun _ => mock_identity m;
  get_role_r := fun h name =>
    match trust_policy_of m h name with
    | Some d => inr {| Role := {| AssumeRolePolicyDocument := d |} |}
    | None => inl NoSuchEntity
    end;
  update_assume_role_policy_r := fun h name _ =>
    match mock_update m with
    | Some e => Some e
    | None => match trust_policy_of m h name with
              | Some _ => None
              | None => Some NoSuchEntity
              end
    end;
  assume_role_r := fun _ arn _ => mock_assume m arn
|}.

(** Two grants in a row for the same role and principal. *)
Definition grant_twice (aws : env) (role : string) (arn : option string) (h : history)
  : history * history :=
  let h1 := snd (update_trust_policy aws role arn h) in
  let h2 := snd (update_trust_policy aws role arn h1) in
  (h1, h2).

(** How many Allow statements of role [name]'s trust policy mention the
    ARN after history [h]; nothing when the role or its statement list is
    missing. *)
Definition matching_after (m : mock) (h : history) (name arn : string) : option nat :=
  match trust_policy_of m h name with
  | Some d => option_map (count_allow arn) (statements_of d)
  | None => None
  end.

(** *** Test data *)

Definition allow_statement (principal : pyval) (action : string) : pyval :=
  PDict [("Effect", PStr "Allow");
         ("Principal", PDict [("AWS", principal)]);
         ("Action", PStr action)].

Definition deny_statement (principal : pyval) (action : string) : pyval :=
  PDict [("Effect", PStr "Deny");
         ("Principal", PDict [("AWS", principal)]);
         ("Action", PStr action)].

Definition policy (statements : list pyval) : pyval :=
  PDict [("Version", PStr "2012-10-17"); ("Statement", PList statements)].

Definition Developer : string := "arn:aws:iam::123456789012:role/Developer".

Definition caller : Identity :=
  {| UserId := "AIDAEXAMPLE";
     Account := "123456789012";
     Arn := Developer |}.

Definition temporary : AssumeRoleResponse :=
  {| Credentials := {| AccessKeyId := "ASIAEXAMPLE"; SecretAccessKey := "secret";
                       SessionToken := "token"; Expiration := "2030-01-01T00:00:00Z" |} |}.

Definition AccessDenied : exn :=
  ClientError "An error occurred (AccessDenied) when calling the AssumeRole operation: not authorized".

Definition EndpointConnectionError : exn :=
  BotoCoreError "Could not connect to the endpoint URL".

(** A service that works, with one role. *)
Definition working (role : string) (trust_policy : pyval) : mock :=
  {| mock_identity := inr caller;
     mock_roles := [(role, trust_policy)];
     mock_update := None;
     mock_assume := fun _ => inr temporary |}.

(** The part of [update_trust_policy] between the two remote calls: read the
    fetched document and decide.  [inr None]: the grant is already there;
    [inr (Some d)]: write [d]; [inl e]: an exception was raised on the way. *)
Definition decide_update (current_role_arn : option string) (trust_policy : pyval)
  : exn + option pyval :=
  let? statement_value := py_get trust_policy "Statement" (PList []) in
  let? statements := py_iter statement_value in
  let? found := scan current_role_arn statements in
  if found then inr None
  else
    let? trust_policy' := append_statement trust_policy (new_statement current_role_arn) in
    inr (Some trust_policy').

Definition already_allowed_line (role : string) (arn : option string) : string :=
  "The role " ++ fmt arn ++ " is already allowed to assume " ++ role ++ ".".

Definition error_line (e : exn) : string := "An error occurred: " ++ exn_str e.

Definition updated_lines (role : string) (arn : option string) : history :=
  [Print ("Updated the trust policy for role " ++ role ++ " to allow "
          ++ fmt arn ++ " to assume it.")%string;
   Print "Waiting 10s for the trust policy update to propagate...";
   Sleep 10].

(** The events of one run of [update_trust_policy] started after [h], when
    the IAM client can be created. *)
Definition update_trace (aws : env) (role : string) (arn : option string) (h : history)
  : history :=
  let h1 := h ++ [Boto3Client "iam" None] in
  let g := get_role_r aws h1 role in
  let h2 := h1 ++ [GetRole role g] in
  Boto3Client "iam" None :: GetRole role g ::
  match g with
  | inl e => [Print (error_line e)]
  | inr response =>
      match decide_update arn (AssumeRolePolicyDocument (Role response)) with
      | inl e => [Print (error_line e)]
      | inr None => [Print (already_allowed_line role arn)]
      | inr (Some d) =>
          let u := update_assume_role_policy_r aws h2 role (JsonText d) in
          UpdateAssumeRolePolicy role (JsonText d) u ::
          match u with
          | Some e => [Print (error_line e)]
          | None => updated_lines role arn
          end
      end
  end.

(** The events of one identity lookup ([get_current_account_id] or
    [get_current_role_arn]) started after [h]; [what] is the text its
    handler prints before the exception. *)
Definition lookup_trace (aws : env) (what : string) (h : history) : history :=
  match client_r aws h "sts" with
  | Some e => [Boto3Client "sts" (Some e); Print (what ++ exn_str e)]
  | None =>
      let r := get_caller_identity_r aws (h ++ [Boto3Client "sts" None]) in
      Boto3Client "sts" None :: GetCallerIdentity r ::
      match r with
      | inl e => [Print (what ++ exn_str e)]
      | inr _ => []
      end
  end.

Definition account_id_error : string :=
  "An error occurred while retrieving the current account ID: ".

Definition role_arn_error : string :=
  "An error occurred while retrieving the current role ARN: ".

(** What [assume_role] makes of the answer of the remote call. *)
Definition assume_result (r : exn + AssumeRoleResponse) : exn + option CredentialsInfo :=
  match r with
  | inr assumed_role => inr (Some (Credentials assumed_role))
  | inl e => if is_ClientError e then inr None else inl e
  end.

(** The events of one run of [assume_role] started after [h], when the STS
    client can be created. *)
Definition assume_trace (aws : env) (role_arn : string) (h : history) : history :=
  let r := assume_role_r aws (h ++ [Boto3Client "sts" None]) role_arn "TestRoleSession" in
  Boto3Client "sts" None :: AssumeRole role_arn "TestRoleSession" r ::
  match r with
  | inl e => if is_ClientError e then [Print ("Failed to assume role: " ++ exn_str e)] else []
  | inr _ => []
  end.

(** A service that cannot be reached: every remote call ends in a
    connection error. *)
Definition unreachable : env := {|
  client_r := fun _ _ => None;
  get_caller_identity_r := fun _ => inl EndpointConnectionError;
  get_role_r := fun _ _ => inl EndpointConnectionError;
  update_assume_role_policy_r := fun _ _ _ => Some EndpointConnectionError;
  assume_role_r := fun _ _ _ => inl EndpointConnectionError
|}.

(** STS cannot be reached, IAM can: the role exists and writes succeed, and
    [assume_role] is refused. *)
Definition identity_down (role : string) (trust_policy : pyval) : mock :=
  {| mock_identity := inl EndpointConnectionError;
     mock_roles := [(role, trust_policy)];
     mock_update := None;
     mock_assume := fun _ => inl AccessDenied |}.

(** A trust policy that already grants [Developer] twice: once for
    [sts:AssumeRole] and once, in list form, for [sts:TagSession]. *)
Definition granted_twice : pyval :=
  policy [allow_statement (PStr Developer) "sts:AssumeRole";
          allow_statement (PList [PStr Developer]) "sts:TagSession"].

(** ** More ways to read a history and a statement *)

Definition is_get_role (ev : event) : bool :=
  match ev with GetRole _ _ => true | _ => false end.

Definition is_get_caller_identity (ev : event) : bool :=
  match ev with GetCallerIdentity _ => true | _ => false end.

Definition is_assume_role (ev : event) : bool :=
  match ev with AssumeRole _ _ _ => true | _ => false end.

(** The calls that reach the service, as opposed to creating a client,
    printing and sleeping. *)
Definition is_remote (ev : event) : bool :=
  match ev with
  | Boto3Client _ _ | Sleep _ | Print _ => false
  | _ => true
  end.

Definition remote_calls (tr : history) : history := filter is_remote tr.

(** An event [update_trust_policy role] may produce: the IAM client, a
    [get_role] or [update_assume_role_policy] for [role], a line of output,
    a sleep of ten seconds; nothing that goes to STS. *)
Definition iam_event_for (role : string) (ev : event) : bool :=
  match ev with
  | Boto3Client service _ => String.eqb service "iam"
  | GetRole name _ => String.eqb name role
  | UpdateAssumeRolePolicy name _ _ => String.eqb name role
  | Sleep seconds => Z.eqb seconds 10
  | Print _ => true
  | GetCallerIdentity _ | AssumeRole _ _ _ => false
  end.

(** An event [assume_role role_arn] may produce. *)
Definition sts_event_for (role_arn : string) (ev : event) : bool :=
  match ev with
  | Boto3Client service _ => String.eqb service "sts"
  | AssumeRole arn session _ =>
      String.eqb arn role_arn && String.eqb session "TestRoleSession"
  | Print _ => true
  | _ => false
  end.

Definition is_print (ev : event) : bool :=
  match ev with Print _ => true | _ => false end.

(** A statement that cannot stop the loop when the ARN is [None]: either it
    is not an Allow statement, or its [Principal.AWS] is missing or is a
    list without [None] in it. *)
Definition passes_None (statement : pyval) : bool :=
  negb (has_effect "Allow" statement)
  || match principal_aws statement with
     | None => true
     | Some (PList l) => negb (existsb (arn_eq None) l)
     | Some _ => false
     end.

(** An Allow statement whose [Principal.AWS] is a string in which the ARN
    occurs, or a list with the ARN among its elements. *)
Definition grants (arn : string) (statement : pyval) : Prop :=
  has_effect "Allow" statement = true
  /\ ((exists pre post, principal_aws statement = Some (PStr (pre ++ arn ++ post)))
      \/ (exists l, principal_aws statement = Some (PList l) /\ In (PStr arn) l)).

(** The identity an answer of [get_caller_identity] carries, if any. *)
Definition identity_of (r : exn + Identity) : option Identity :=
  match r with inr identity => Some identity | inl _ => None end.

(** The ARN [construct_role_arn] builds from an answer of
    [get_caller_identity]. *)
Definition role_arn_from (r : exn + Identity) (role_name : string) : string :=
  "arn:aws:iam::" ++ fmt (option_map Account (identity_of r)) ++ ":role/" ++ role_name.

(** The value under key [k] of a document, if it is a dict that has one. *)
Definition field (k : string) (d : pyval) : option pyval :=
  match d with PDict kvs => assoc k kvs | _ => None end.

(** The keys of a document, in order. *)
Definition keys (d : pyval) : list string :=
  match d with PDict kvs => map fst kvs | _ => [] end.

(** A service whose clients cannot be created (no region, no credentials
    file, ...): [boto3.client] raises. *)
Definition no_client : env := {|
  client_r := fun _ _ => Some EndpointConnectionError;
  get_caller_identity_r := fun _ => inr caller;
  get_role_r := fun _ _ => inr {| Role := {| AssumeRolePolicyDocument := policy [] |} |};
  update_assume_role_policy_r := fun _ _ _ => None;
  assume_role_r := fun _ _ _ => inr temporary
|}.

(** STS works, the IAM client cannot be created. *)
Definition no_iam_client : env := {|
  client_r := fun _ service =>
    if String.eqb service "iam" then Some EndpointConnectionError else None;
  get_caller_identity_r := fun _ => inr caller;
  get_role_r := fun _ _ => inr {| Role := {| AssumeRolePolicyDocument := policy [] |} |};
  update_assume_role_policy_r := fun _ _ _ => None;
  assume_role_r := fun _ _ _ => inr temporary
|}.

(** ** Proof steps used more than once *)

(** Two histories that differ only in how their appends are nested. *)
Ltac same_history := cbn [and_then]; cbv beta iota; rewrite <- ?app_assoc; reflexivity.

(** Go through the events of an explicit list. *)
Ltac split_in :=
  repeat match goal with
         | H : In _ (_ :: _) |- _ => destruct H as [H|H]
         | H : In _ [] |- _ => destruct H
         | H : @eq event _ _ |- _ => inversion H; clear H; subst
         end.

(** * Properties *)

(** ** Strings *)

Lemma prefix_app (s t : string) : String.prefix s (s ++ t) = true.
Proof.
  induction s as [|c s IH]; simpl.
  - destruct t; reflexivity.
  - destruct (Ascii.ascii_dec c c) as [_|N]; [exact IH | contradiction].
Qed.

Lemma is_substring_prefix (s t : string) :
  String.prefix s t = true -> is_substring s t = true.
Proof. intros H. destruct t; cbn [is_substring]; rewrite H; reflexivity. Qed.

Lemma is_substring_occurs (a pre post : string) :
  is_substring a (pre ++ a ++ post) = true.
Proof.
  induction pre as [|c pre IH].
  - change (is_substring a (a ++ post) = true).
    apply is_substring_prefix, prefix_app.
  - change (String c pre ++ a ++ post)%string with (String c (pre ++ a ++ post)).
    cbn [is_substring].
    destruct (String.prefix a (String c (pre ++ a ++ post))); [reflexivity | exact IH].
Qed.

Lemma is_substring_refl (a : string) : is_substring a a = true.
Proof.
  apply is_substring_prefix.
  induction a as [|c a IH]; simpl; [reflexivity|].
  destruct (Ascii.ascii_dec c c) as [_|N]; [exact IH | contradiction].
Qed.

(** ** The loop's test on statements it can read *)

Lemma allows_scannable (a : string) (s : pyval) :
  scannable s = true -> allows (Some a) s = inr (allow_mentions a s).
Proof.
  unfold scannable, allows, allow_mentions, has_effect, mentions, effect_of, principal_aws.
  destruct s as [| | | |l|kvs]; try discriminate. simpl.
  destruct (assoc "Effect" kvs) as [[| | |e| |]|]; simpl; try reflexivity.
  destruct (String.eqb e "Allow"); simpl; [|reflexivity].
  destruct (assoc "Principal" kvs) as [[| | | | |p]|]; simpl; try discriminate;
    [|reflexivity].
  destruct (assoc "AWS" p) as [[| | |t|l|]|]; simpl; try discriminate; reflexivity.
Qed.

Lemma scan_scannable (a : string) (sts : list pyval) :
  forallb scannable sts = true ->
  scan (Some a) sts = inr (existsb (allow_mentions a) sts).
Proof.
  induction sts as [|s sts IH]; simpl; [reflexivity|].
  intros H. apply andb_prop in H. destruct H as [Hs Hsts].
  rewrite (allows_scannable a s Hs). simpl.
  destruct (allow_mentions a s); simpl; [reflexivity | exact (IH Hsts)].
Qed.

(** A test that says no means the statement is not an Allow statement that
    mentions the ARN, whatever the statement looks like. *)
Lemma allows_false (a : string) (s : pyval) :
  allows (Some a) s = inr false -> allow_mentions a s = false.
Proof.
  unfold allows, allow_mentions, has_effect, mentions, effect_of, principal_aws.
  destruct s as [| | | |l|kvs]; try discriminate. simpl.
  destruct (assoc "Effect" kvs) as [[| | |e| |]|]; simpl; try reflexivity.
  destruct (String.eqb e "Allow"); simpl; [|reflexivity].
  destruct (assoc "Principal" kvs) as [[| | | | |p]|]; simpl; try discriminate;
    try reflexivity.
  destruct (assoc "AWS" p) as [[| | |t|l|d]|]; simpl; try discriminate;
    try reflexivity; intros H; injection H as H; exact H.
Qed.

Lemma scan_false (a : string) (sts : list pyval) :
  scan (Some a) sts = inr false -> count_allow a sts = 0.
Proof.
  unfold count_allow.
  induction sts as [|s sts IH]; simpl; [reflexivity|].
  destruct (allows (Some a) s) as [e|[|]] eqn:E; simpl; try discriminate.
  intros H. rewrite (allows_false a s E). exact (IH H).
Qed.

(** ** One run of [update_trust_policy], step by step *)

Lemma update_trust_policy_run (aws : env) (role : string) (arn : option string)
    (h : history) :
  client_r aws h "iam" = None ->
  update_trust_policy aws role arn h = (inr tt, h ++ update_trace aws role arn h).
Proof.
  intros Hc.
  unfold update_trust_policy, update_trace, bind, try_except, boto3_client, iam_get_role,
    lift, iam_update_assume_role_policy, print, time_sleep, Exception, decide_update,
    json_dumps, updated_lines.
  rewrite Hc. cbv zeta.
  destruct (get_role_r aws (h ++ [Boto3Client "iam" None]) role) as [e|response];
    [same_history|].
  destruct (py_get (AssumeRolePolicyDocument (Role response)) "Statement" (PList []))
    as [e|sv]; [same_history|]. cbn [and_then].
  destruct (py_iter sv) as [e|sts]; [same_history|]. cbn [and_then].
  destruct (scan arn sts) as [e|[|]]; try same_history.
  cbn [and_then].
  destruct (append_statement (AssumeRolePolicyDocument (Role response)) (new_statement arn))
    as [e|d]; [same_history|]. cbn [and_then].
  destruct (update_assume_role_policy_r aws _ role (JsonText d)) as [e|]; same_history.
Qed.

(** ** The other functions, step by step *)

Lemma get_current_account_id_run (aws : env) (h : history) :
  get_current_account_id aws h =
    (inr (match sts_lookup aws h with inr identity => Some (Account identity) | inl _ => None end),
     h ++ lookup_trace aws account_id_error h).
Proof.
  unfold get_current_account_id, sts_lookup, lookup_trace, bind, try_except, boto3_client,
    sts_get_caller_identity, print, ret, Exception, account_id_error.
  destruct (client_r aws h "sts") as [e|]; [same_history|].
  cbv zeta.
  destruct (get_caller_identity_r aws (h ++ [Boto3Client "sts" None])) as [e|identity];
    same_history.
Qed.

Lemma get_current_role_arn_run (aws : env) (h : history) :
  get_current_role_arn aws h =
    (inr (match sts_lookup aws h with inr identity => Some (Arn identity) | inl _ => None end),
     h ++ lookup_trace aws role_arn_error h).
Proof.
  unfold get_current_role_arn, sts_lookup, lookup_trace, bind, try_except, boto3_client,
    sts_get_caller_identity, print, ret, Exception, role_arn_error.
  destruct (client_r aws h "sts") as [e|]; [same_history|].
  cbv zeta.
  destruct (get_caller_identity_r aws (h ++ [Boto3Client "sts" None])) as [e|identity];
    same_history.
Qed.

Lemma construct_role_arn_run (aws : env) (role_name : string) (h : history) :
  construct_role_arn aws role_name h =
    (inr ("arn:aws:iam::"
          ++ fmt (match sts_lookup aws h with
                  | inr identity => Some (Account identity)
                  | inl _ => None
                  end)
          ++ ":role/" ++ role_name)%string,
     h ++ lookup_trace aws account_id_error h).
Proof.
  unfold construct_role_arn, bind. rewrite get_current_account_id_run. reflexivity.
Qed.

Lemma assume_role_run (aws : env) (role_arn : string) (h : history) :
  client_r aws h "sts" = None ->
  assume_role aws role_arn h =
    (assume_result (assume_role_r aws (h ++ [Boto3Client "sts" None]) role_arn "TestRoleSession"),
     h ++ assume_trace aws role_arn h).
Proof.
  intros Hc.
  unfold assume_role, assume_trace, assume_result, bind, try_except, boto3_client,
    sts_assume_role, print, ret.
  rewrite Hc. cbv zeta.
  destruct (assume_role_r aws (h ++ [Boto3Client "sts" None]) role_arn "TestRoleSession")
    as [e|assumed_role]; [|same_history].
  destruct (is_ClientError e); same_history.
Qed.

(** ** The ARN builder *)

(** C8.  When the caller's account id is [Account identity],
    [construct_role_arn role_name] returns
    ["arn:aws:iam::" ++ Account identity ++ ":role/" ++ role_name], with the
    fixed partition [aws]; for account ["123456789012"] and role
    ["TestRole"] that is ["arn:aws:iam::123456789012:role/TestRole"]. *)
Theorem construct_role_arn_format (aws : env) (h : history) (role_name : string)
    (identity : Identity) :
  sts_lookup aws h = inr identity ->
  fst (construct_role_arn aws role_name h)
    = inr ("arn:aws:iam::" ++ Account identity ++ ":role/" ++ role_name)%string
  /\ (Account identity = "123456789012" -> role_name = "TestRole" ->
      fst (construct_role_arn aws role_name h)
        = inr "arn:aws:iam::123456789012:role/TestRole").
Proof.
  intros H. rewrite construct_role_arn_run, H. cbn [fst fmt]. split; [reflexivity|].
  intros -> ->. reflexivity.
Qed.

Lemma construct_role_arn_example :
  sts_lookup (mock_env (working "TestRole" (policy []))) [] = inr caller
  /\ fst (construct_role_arn (mock_env (working "TestRole" (policy []))) "TestRole" [])
     = inr "arn:aws:iam::123456789012:role/TestRole".
Proof.
  split; [reflexivity|].
  exact (proj1 (construct_role_arn_format (mock_env (working "TestRole" (policy []))) []
                  "TestRole" caller eq_refl)).
Defined.

(** C9.  When the identity lookup fails, [get_current_account_id] returns
    [None] and [construct_role_arn] neither raises nor returns [None]: it
    returns the ARN-shaped string with ["None"] where the account id goes. *)
Theorem construct_role_arn_embeds_None (aws : env) (h : history) (role_name : string)
    (e : exn) :
  sts_lookup aws h = inl e ->
  fst (get_current_account_id aws h) = inr None
  /\ fst (construct_role_arn aws role_name h)
     = inr ("arn:aws:iam::None:role/" ++ role_name)%string.
Proof.
  intros H. rewrite get_current_account_id_run, construct_role_arn_run, H.
  split; reflexivity.
Qed.

Lemma construct_role_arn_embeds_None_example :
  sts_lookup unreachable [] = inl EndpointConnectionError
  /\ fst (construct_role_arn unreachable "TestRole" [])
     = inr "arn:aws:iam::None:role/TestRole".
Proof.
  split; [reflexivity|].
  exact (proj2 (construct_role_arn_embeds_None unreachable [] "TestRole"
                  EndpointConnectionError eq_refl)).
Defined.

(** ** Exceptions inside [update_trust_policy] *)

(** C6.  Once the IAM client exists, [update_trust_policy] returns normally
    with the same value whatever happens: an exception raised by [get_role],
    by [update_assume_role_policy] or while the fetched document is read is
    caught, and the last thing the run does is print it. *)
Theorem update_trust_policy_swallows_exceptions (aws : env) (role : string)
    (arn : option string) (h : history) :
  client_r aws h "iam" = None ->
  exists tr,
    update_trust_policy aws role arn h = (inr tt, h ++ tr)
    /\ (forall e, In (GetRole role (inl e)) tr ->
        last tr (Sleep 0) = Print (error_line e))
    /\ (forall d e, In (UpdateAssumeRolePolicy role d (Some e)) tr ->
        last tr (Sleep 0) = Print (error_line e))
    /\ (forall response e, In (GetRole role (inr response)) tr ->
        decide_update arn (AssumeRolePolicyDocument (Role response)) = inl e ->
        last tr (Sleep 0) = Print (error_line e)).
Proof.
  intros Hc. exists (update_trace aws role arn h).
  split; [exact (update_trust_policy_run aws role arn h Hc)|].
  unfold update_trace, updated_lines. cbv zeta.
  destruct (get_role_r aws (h ++ [Boto3Client "iam" None]) role) as [e0|response0].
  { repeat split; intros; split_in; reflexivity. }
  destruct (decide_update arn (AssumeRolePolicyDocument (Role response0)))
    as [e0|[d0|]] eqn:D.
  - repeat split; intros; split_in; cbn [last]; congruence.
  - destruct (update_assume_role_policy_r aws _ role (JsonText d0)) as [e0|];
      repeat split; intros; split_in; cbn [last]; congruence.
  - repeat split; intros; split_in; cbn [last]; congruence.
Qed.

Lemma update_trust_policy_swallows_exceptions_example :
  let run := update_trust_policy unreachable "TestRole"
               (Some "arn:aws:iam::123456789012:role/Developer") [] in
  client_r unreachable [] "iam" = None
  /\ fst run = inr tt
  /\ last (snd run) (Sleep 0)
     = Print "An error occurred: Could not connect to the endpoint URL".
Proof.
  intros run. split; [reflexivity|].
  destruct (update_trust_policy_swallows_exceptions unreachable "TestRole"
              (Some "arn:aws:iam::123456789012:role/Developer") [] eq_refl)
    as [tr [H [Hget _]]].
  change ([] ++ tr) with tr in H.
  assert (Htr : tr = snd run) by (unfold run; rewrite H; reflexivity).
  split; [unfold run; rewrite H; reflexivity|].
  rewrite <- Htr.
  apply (Hget EndpointConnectionError).
  rewrite Htr. right. left. reflexivity.
Defined.

(** ** Documents without a statement list *)

Lemma decide_update_no_statement_list (arn : option string) (d : pyval) :
  statements_of d = None ->
  exists e, decide_update arn d = inl e
            /\ (forall kvs, d = PDict kvs -> assoc "Statement" kvs = None ->
                e = KeyError "Statement").
Proof.
  unfold statements_of, decide_update, append_statement.
  destruct d as [| | | |l|kvs];
    try (intros _; eexists; split; [reflexivity | intros; discriminate]).
  cbn [py_get py_getitem and_then].
  destruct (assoc "Statement" kvs) as [v|] eqn:E.
  - intros H. destruct v as [| | |s|l|kv]; try discriminate H;
      try (eexists; split; [reflexivity | intros ? Hd; injection Hd as <-; congruence]).
    + destruct s as [|c s];
        (eexists; split; [reflexivity | intros ? Hd; injection Hd as <-; congruence]).
    + destruct kv as [|[k v] kv];
        (eexists; split; [reflexivity | intros ? Hd; injection Hd as <-; congruence]).
  - intros _. eexists. split; [reflexivity|]. reflexivity.
Qed.

(** C5.  When the fetched trust policy has no list under ["Statement"] (the
    key is missing, or holds something that is not a list, or the document is
    not a dict at all), [update_trust_policy] returns normally: the exception
    is caught and printed, and nothing is written.  With the key missing the
    exception is the [KeyError] of the append step. *)
Theorem update_trust_policy_without_statement_list (aws : env) (role : string)
    (arn : option string) (h : history) (response : GetRoleResponse) :
  client_r aws h "iam" = None ->
  get_role_r aws (h ++ [Boto3Client "iam" None]) role = inr response ->
  statements_of (AssumeRolePolicyDocument (Role response)) = None ->
  exists e,
    update_trust_policy aws role arn h
      = (inr tt, h ++ [Boto3Client "iam" None; GetRole role (inr response);
                       Print (error_line e)])
    /\ (forall kvs, AssumeRolePolicyDocument (Role response) = PDict kvs ->
        assoc "Statement" kvs = None -> e = KeyError "Statement").
Proof.
  intros Hc Hg Hs.
  destruct (decide_update_no_statement_list arn _ Hs) as [e [He Hk]].
  exists e. split; [|exact Hk].
  rewrite (update_trust_policy_run aws role arn h Hc).
  unfold update_trace. cbv zeta. rewrite Hg, He. reflexivity.
Qed.

Lemma update_trust_policy_without_statement_list_example :
  let aws := mock_env (working "TestRole" (PDict [("Version", PStr "2012-10-17")])) in
  let response := {| Role := {| AssumeRolePolicyDocument :=
                                  PDict [("Version", PStr "2012-10-17")] |} |} in
  client_r aws [] "iam" = None
  /\ get_role_r aws [Boto3Client "iam" None] "TestRole" = inr response
  /\ statements_of (AssumeRolePolicyDocument (Role response)) = None
  /\ update_trust_policy aws "TestRole" (Some "arn:aws:iam::123456789012:role/Developer") []
     = (inr tt, [Boto3Client "iam" None; GetRole "TestRole" (inr response);
                 Print "An error occurred: 'Statement'"]).
Proof.
  intros aws response.
  split; [reflexivity|]. split; [reflexivity|]. split; [reflexivity|].
  destruct (update_trust_policy_without_statement_list aws "TestRole"
              (Some "arn:aws:iam::123456789012:role/Developer") [] response
              eq_refl eq_refl eq_refl) as [e [H Hk]].
  rewrite (Hk _ eq_refl eq_refl) in H. exact H.
Defined.

(** ** Documents with a statement list *)

Lemma assoc_rebind (k : string) (v v' : pyval) (kvs : list (string * pyval)) :
  assoc k kvs = Some v -> assoc k (rebind k v' kvs) = Some v'.
Proof.
  induction kvs as [|[k0 v0] kvs IH]; simpl; [discriminate|].
  destruct (String.eqb k k0) eqn:E; simpl; rewrite E; [reflexivity | exact IH].
Qed.

Lemma statements_of_rebind (d : pyval) (sts l : list pyval) :
  statements_of d = Some sts ->
  statements_of (py_rebind d "Statement" (PList l)) = Some l.
Proof.
  unfold statements_of, py_rebind.
  destruct d as [| | | | |kvs]; try discriminate.
  destruct (assoc "Statement" kvs) as [v|] eqn:E; [|discriminate].
  intros _. rewrite (assoc_rebind _ _ (PList l) _ E). reflexivity.
Qed.

Lemma decide_update_statements (arn : option string) (d : pyval) (sts : list pyval) :
  statements_of d = Some sts ->
  decide_update arn d =
    (let? found := scan arn sts in
     if found then inr None
     else inr (Some (py_rebind d "Statement" (PList (sts ++ [new_statement arn]))))).
Proof.
  unfold statements_of, decide_update, append_statement.
  destruct d as [| | | | |kvs]; try discriminate.
  cbn [py_get py_getitem].
  destruct (assoc "Statement" kvs) as [[| | | |l|]|] eqn:E; try discriminate.
  intros H. injection H as ->. reflexivity.
Qed.

Lemma scan_hit (a : string) (sts : list pyval) (s : pyval) :
  In s sts -> allow_mentions a s = true -> scan (Some a) sts <> inr false.
Proof.
  intros Hin Hs Hscan. apply scan_false in Hscan. unfold count_allow in Hscan.
  assert (Hf : In s (filter (allow_mentions a) sts)) by (apply filter_In; split; assumption).
  destruct (filter (allow_mentions a) sts); [destruct Hf | discriminate].
Qed.

(** When some Allow statement of the fetched document mentions the ARN,
    nothing is written; when moreover the loop can read every statement, the
    run is the "already allowed" one. *)
Lemma mentioned_no_write (aws : env) (role a : string) (h : history)
    (response : GetRoleResponse) (sts : list pyval) (s : pyval) :
  client_r aws h "iam" = None ->
  get_role_r aws (h ++ [Boto3Client "iam" None]) role = inr response ->
  statements_of (AssumeRolePolicyDocument (Role response)) = Some sts ->
  In s sts ->
  allow_mentions a s = true ->
  exists tr,
    update_trust_policy aws role (Some a) h = (inr tt, h ++ tr)
    /\ no_write tr
    /\ (forallb scannable sts = true ->
        tr = [Boto3Client "iam" None; GetRole role (inr response);
              Print (already_allowed_line role (Some a))]).
Proof.
  intros Hc Hg Hsts Hin Hs.
  exists (update_trace aws role (Some a) h).
  split; [exact (update_trust_policy_run aws role (Some a) h Hc)|].
  unfold update_trace. cbv zeta. rewrite Hg, (decide_update_statements _ _ _ Hsts).
  destruct (scan (Some a) sts) as [e|[|]] eqn:S; cbn [and_then].
  - split; [reflexivity|]. intros Hall.
    rewrite (scan_scannable a sts Hall) in S. discriminate.
  - split; [reflexivity|]. intros _. reflexivity.
  - exfalso. exact (scan_hit a sts s Hin Hs S).
Qed.

Lemma existsb_arn_eq (a : string) (l : list pyval) :
  In (PStr a) l -> existsb (arn_eq (Some a)) l = true.
Proof.
  intros H. apply existsb_exists. exists (PStr a). split; [exact H|].
  simpl. apply String.eqb_refl.
Qed.

(** C3.  When an Allow statement of the fetched document has the granting
    ARN as its [Principal.AWS], either as the string itself or as an element
    of a list, [update_trust_policy] returns without a write; when the loop
    can read every statement, what it does is fetch the role, print that the
    role is already allowed, and return. *)
Theorem scan_detects_string_and_list_forms (aws : env) (role a : string) (h : history)
    (response : GetRoleResponse) (sts : list pyval) (s : pyval) :
  client_r aws h "iam" = None ->
  get_role_r aws (h ++ [Boto3Client "iam" None]) role = inr response ->
  statements_of (AssumeRolePolicyDocument (Role response)) = Some sts ->
  In s sts ->
  has_effect "Allow" s = true ->
  (principal_aws s = Some (PStr a)
   \/ exists l, principal_aws s = Some (PList l) /\ In (PStr a) l) ->
  exists tr,
    update_trust_policy aws role (Some a) h = (inr tt, h ++ tr)
    /\ no_write tr
    /\ (forallb scannable sts = true ->
        tr = [Boto3Client "iam" None; GetRole role (inr response);
              Print (already_allowed_line role (Some a))]).
Proof.
  intros Hc Hg Hsts Hin He Hp.
  apply (mentioned_no_write aws role a h response sts s Hc Hg Hsts Hin).
  unfold allow_mentions, mentions. rewrite He. cbn [andb].
  destruct Hp as [Hp|[l [Hp Hl]]]; rewrite Hp.
  - apply is_substring_refl.
  - apply existsb_arn_eq, Hl.
Qed.

Lemma scan_detects_string_and_list_forms_example :
  let single := policy [allow_statement (PStr Developer) "sts:AssumeRole"] in
  let listed := policy [allow_statement
                          (PList [PStr "arn:aws:iam::123456789012:root"; PStr Developer])
                          "sts:AssumeRole"] in
  let answer d := {| Role := {| AssumeRolePolicyDocument := d |} |} in
  update_trust_policy (mock_env (working "TestRole" single)) "TestRole" (Some Developer) []
    = (inr tt, [Boto3Client "iam" None; GetRole "TestRole" (inr (answer single));
                Print (already_allowed_line "TestRole" (Some Developer))])
  /\ update_trust_policy (mock_env (working "TestRole" listed)) "TestRole" (Some Developer) []
    = (inr tt, [Boto3Client "iam" None; GetRole "TestRole" (inr (answer listed));
                Print (already_allowed_line "TestRole" (Some Developer))]).
Proof.
  intros single listed answer. split.
  - destruct (scan_detects_string_and_list_forms
                (mock_env (working "TestRole" single)) "TestRole" Developer []
                (answer single) _ (allow_statement (PStr Developer) "sts:AssumeRole")
                eq_refl eq_refl eq_refl (or_introl eq_refl) eq_refl (or_introl eq_refl))
      as [tr [H [_ Htr]]].
    rewrite H, (Htr eq_refl). reflexivity.
  - destruct (scan_detects_string_and_list_forms
                (mock_env (working "TestRole" listed)) "TestRole" Developer []
                (answer listed) _
                (allow_statement
                   (PList [PStr "arn:aws:iam::123456789012:root"; PStr Developer])
                   "sts:AssumeRole")
                eq_refl eq_refl eq_refl (or_introl eq_refl) eq_refl
                (or_intror (ex_intro _ _ (conj eq_refl (or_intror (or_introl eq_refl))))))
      as [tr [H [_ Htr]]].
    rewrite H, (Htr eq_refl). reflexivity.
Defined.

(** C4.  When an Allow statement's [Principal.AWS] is a single string that
    has the granting ARN strictly inside it, [update_trust_policy] takes the
    grant as present all the same and returns without a write. *)
Theorem scan_accepts_proper_substring (aws : env) (role a : string) (h : history)
    (response : GetRoleResponse) (sts : list pyval) (s : pyval) (pre post : string) :
  client_r aws h "iam" = None ->
  get_role_r aws (h ++ [Boto3Client "iam" None]) role = inr response ->
  statements_of (AssumeRolePolicyDocument (Role response)) = Some sts ->
  In s sts ->
  has_effect "Allow" s = true ->
  principal_aws s = Some (PStr (pre ++ a ++ post)) ->
  (pre ++ a ++ post)%string <> a ->
  exists tr,
    update_trust_policy aws role (Some a) h = (inr tt, h ++ tr)
    /\ no_write tr
    /\ (forallb scannable sts = true ->
        tr = [Boto3Client "iam" None; GetRole role (inr response);
              Print (already_allowed_line role (Some a))]).
Proof.
  intros Hc Hg Hsts Hin He Hp _.
  apply (mentioned_no_write aws role a h response sts s Hc Hg Hsts Hin).
  unfold allow_mentions, mentions. rewrite He, Hp. cbn [andb].
  apply is_substring_occurs.
Qed.

Lemma scan_accepts_proper_substring_example :
  let a := "arn:aws:iam::123456789012:role/Test" in
  let s := allow_statement (PStr "arn:aws:iam::123456789012:role/TestRole") "sts:AssumeRole" in
  let response := {| Role := {| AssumeRolePolicyDocument := policy [s] |} |} in
  principal_aws s <> Some (PStr a)
  /\ update_trust_policy (mock_env (working "Target" (policy [s]))) "Target" (Some a) []
     = (inr tt, [Boto3Client "iam" None; GetRole "Target" (inr response);
                 Print "The role arn:aws:iam::123456789012:role/Test is already allowed to assume Target."]).
Proof.
  intros a s response.
  assert (Hne : ("" ++ a ++ "Role")%string <> a) by (intros H; discriminate H).
  split; [intros H; discriminate H|].
  destruct (scan_accepts_proper_substring
              (mock_env (working "Target" (policy [s]))) "Target" a [] response [s] s
              "" "Role" eq_refl eq_refl eq_refl (or_introl eq_refl) eq_refl eq_refl Hne)
    as [tr [H [_ Htr]]].
  rewrite H, (Htr eq_refl). reflexivity.
Defined.

(** ** Deny statements *)





(** ** Where failures of remote calls end up *)

Lemma last_lookup_trace (aws : env) (what : string) (h : history) (e : exn) :
  sts_lookup aws h = inl e ->
  last (h ++ lookup_trace aws what h) (Sleep 0) = Print (what ++ exn_str e).
Proof.
  unfold sts_lookup, lookup_trace.
  destruct (client_r aws h "sts") as [e0|].
  - intros H. injection H as ->.
    change (h ++ [Boto3Client "sts" (Some e); Print (what ++ exn_str e)])
      with (h ++ [Boto3Client "sts" (Some e)] ++ [Print (what ++ exn_str e)]).
    rewrite app_assoc. apply last_last.
  - cbv zeta. intros H. rewrite H.
    change (h ++ [Boto3Client "sts" None; GetCallerIdentity (inl e);
                  Print (what ++ exn_str e)])
      with (h ++ [Boto3Client "sts" None; GetCallerIdentity (inl e)]
              ++ [Print (what ++ exn_str e)]).
    rewrite app_assoc. apply last_last.
Qed.

(** C7, as the script has it.  An exception of the identity lookup ends at
    [get_current_account_id] / [get_current_role_arn]: it is printed and
    [None] is returned.  An exception of [get_role] or of
    [update_assume_role_policy] ends at [update_trust_policy]: it is printed
    and the function returns.
    [assume_role] catches [ClientError] only: such an error of the
    assume-role call is printed and [None] is returned, and an exception of
    any other class leaves [assume_role] as it is. *)
Theorem failures_at_function_boundaries (aws : env) (h : history) :
  (forall e, sts_lookup aws h = inl e ->
     fst (get_current_account_id aws h) = inr None
     /\ last (snd (get_current_account_id aws h)) (Sleep 0)
        = Print (account_id_error ++ exn_str e))
  /\ (forall e, sts_lookup aws h = inl e ->
     fst (get_current_role_arn aws h) = inr None
     /\ last (snd (get_current_role_arn aws h)) (Sleep 0)
        = Print (role_arn_error ++ exn_str e))
  /\ (forall role arn e,
     client_r aws h "iam" = None ->
     get_role_r aws (h ++ [Boto3Client "iam" None]) role = inl e ->
     fst (update_trust_policy aws role arn h) = inr tt
     /\ last (snd (update_trust_policy aws role arn h)) (Sleep 0) = Print (error_line e))
  /\ (forall role arn response d e,
     client_r aws h "iam" = None ->
     get_role_r aws (h ++ [Boto3Client "iam" None]) role = inr response ->
     decide_update arn (AssumeRolePolicyDocument (Role response)) = inr (Some d) ->
     update_assume_role_policy_r aws
       ((h ++ [Boto3Client "iam" None]) ++ [GetRole role (inr response)])
       role (json_dumps d) = Some e ->
     fst (update_trust_policy aws role arn h) = inr tt
     /\ last (snd (update_trust_policy aws role arn h)) (Sleep 0) = Print (error_line e))
  /\ (forall role_arn e,
     client_r aws h "sts" = None ->
     assume_role_r aws (h ++ [Boto3Client "sts" None]) role_arn "TestRoleSession" = inl e ->
     is_ClientError e = true ->
     fst (assume_role aws role_arn h) = inr None
     /\ last (snd (assume_role aws role_arn h)) (Sleep 0)
        = Print ("Failed to assume role: " ++ exn_str e))
  /\ (forall role_arn e,
     client_r aws h "sts" = None ->
     assume_role_r aws (h ++ [Boto3Client "sts" None]) role_arn "TestRoleSession" = inl e ->
     is_ClientError e = false ->
     fst (assume_role aws role_arn h) = inl e).
Proof.
  repeat apply conj.
  - intros e H. rewrite get_current_account_id_run. cbn [fst snd].
    rewrite (last_lookup_trace aws account_id_error h e H), H. split; reflexivity.
  - intros e H. rewrite get_current_role_arn_run. cbn [fst snd].
    rewrite (last_lookup_trace aws role_arn_error h e H), H. split; reflexivity.
  - intros role arn e Hc Hg. rewrite (update_trust_policy_run aws role arn h Hc).
    cbn [fst snd]. split; [reflexivity|].
    unfold update_trace. cbv zeta. rewrite Hg.
    change (h ++ [Boto3Client "iam" None; GetRole role (inl e); Print (error_line e)])
      with (h ++ [Boto3Client "iam" None; GetRole role (inl e)] ++ [Print (error_line e)]).
    rewrite app_assoc. apply last_last.
  - intros role arn response d e Hc Hg Hd Hu.
    rewrite (update_trust_policy_run aws role arn h Hc).
    cbn [fst snd]. split; [reflexivity|].
    unfold update_trace. cbv zeta. unfold json_dumps in Hu. rewrite Hg, Hd, Hu.
    change (h ++ [Boto3Client "iam" None; GetRole role (inr response);
                  UpdateAssumeRolePolicy role (JsonText d) (Some e); Print (error_line e)])
      with (h ++ [Boto3Client "iam" None; GetRole role (inr response);
                  UpdateAssumeRolePolicy role (JsonText d) (Some e)]
              ++ [Print (error_line e)]).
    rewrite app_assoc. apply last_last.
  - intros role_arn e Hc Ha He. rewrite (assume_role_run aws role_arn h Hc).
    cbn [fst snd]. unfold assume_trace, assume_result. cbv zeta. rewrite Ha, He.
    split; [reflexivity|].
    change (h ++ [Boto3Client "sts" None; AssumeRole role_arn "TestRoleSession" (inl e);
                  Print ("Failed to assume role: " ++ exn_str e)])
      with (h ++ [Boto3Client "sts" None; AssumeRole role_arn "TestRoleSession" (inl e)]
              ++ [Print ("Failed to assume role: " ++ exn_str e)]).
    rewrite app_assoc. apply last_last.
  - intros role_arn e Hc Ha He. rewrite (assume_role_run aws role_arn h Hc).
    cbn [fst]. unfold assume_result. rewrite Ha, He. reflexivity.
Qed.

Lemma failures_at_function_boundaries_example :
  let aws := mock_env (identity_down "TestRole" (policy [])) in
  (client_r aws [] "sts" = None
   /\ assume_role_r aws [Boto3Client "sts" None] "arn:aws:iam::None:role/TestRole"
        "TestRoleSession" = inl AccessDenied
   /\ is_ClientError AccessDenied = true)
  /\ fst (assume_role aws "arn:aws:iam::None:role/TestRole" []) = inr None
  /\ sts_lookup aws [] = inl EndpointConnectionError
  /\ fst (get_current_role_arn aws []) = inr None.
Proof.
  intros aws.
  destruct (failures_at_function_boundaries aws []) as [_ [Harn [_ [_ [Hassume _]]]]].
  split; [repeat apply conj; reflexivity|].
  split; [exact (proj1 (Hassume "arn:aws:iam::None:role/TestRole" AccessDenied
                          eq_refl eq_refl eq_refl))|].
  split; [reflexivity|].
  exact (proj1 (Harn EndpointConnectionError eq_refl)).
Defined.

(** C7 as the claim has it fails: a failure of the assume-role call that is
    not a [ClientError] (here: the endpoint cannot be reached) is neither
    printed nor turned into [None]; [assume_role] raises it, and so does
    [auto_assume]. *)
Lemma assume_role_raises_connection_error :
  assume_role_r unreachable [Boto3Client "sts" None]
    "arn:aws:iam::123456789012:role/TestRole" "TestRoleSession"
    = inl EndpointConnectionError
  /\ assume_role unreachable "arn:aws:iam::123456789012:role/TestRole" []
     = (inl EndpointConnectionError,
        [Boto3Client "sts" None;
         AssumeRole "arn:aws:iam::123456789012:role/TestRole" "TestRoleSession"
           (inl EndpointConnectionError)])
  /\ fst (assume_role unreachable "arn:aws:iam::123456789012:role/TestRole" []) <> inr None
  /\ fst (auto_assume unreachable "TestRole" []) = inl EndpointConnectionError.
Proof.
  repeat apply conj; try reflexivity. intros H; discriminate H.
Qed.

(** ** The orchestrator when the identity lookup fails *)

(** C1 as the claim has it fails.  With STS out of reach and IAM working,
    [auto_assume] returns [None], but only after it has fetched the role,
    called [update_assume_role_policy] with a trust policy whose new
    statement has [None] as its principal, and called [assume_role].  With the whole service out of reach it
    fetches the role and calls [assume_role] too, and the connection error
    of that last call leaves [auto_assume] as an exception. *)
Lemma auto_assume_calls_iam_without_identity :
  let none_statement := allow_statement PNone "sts:AssumeRole" in
  fst (get_current_role_arn (mock_env (identity_down "TestRole" (policy []))) []) = inr None
  /\ auto_assume (mock_env (identity_down "TestRole" (policy []))) "TestRole" []
     = (inr None,
        [Boto3Client "sts" None;
         GetCallerIdentity (inl EndpointConnectionError);
         Print "An error occurred while retrieving the current role ARN: Could not connect to the endpoint URL";
         Boto3Client "iam" None;
         GetRole "TestRole" (inr {| Role := {| AssumeRolePolicyDocument := policy [] |} |});
         UpdateAssumeRolePolicy "TestRole" (json_dumps (policy [none_statement])) None;
         Print "Updated the trust policy for role TestRole to allow None to assume it.";
         Print "Waiting 10s for the trust policy update to propagate...";
         Sleep 10;
         Boto3Client "sts" None;
         GetCallerIdentity (inl EndpointConnectionError);
         Print "An error occurred while retrieving the current account ID: Could not connect to the endpoint URL";
         Boto3Client "sts" None;
         AssumeRole "arn:aws:iam::None:role/TestRole" "TestRoleSession" (inl AccessDenied);
         Print "Failed to assume role: An error occurred (AccessDenied) when calling the AssumeRole operation: not authorized"])
  /\ fst (get_current_role_arn unreachable []) = inr None
  /\ auto_assume unreachable "TestRole" []
     = (inl EndpointConnectionError,
        [Boto3Client "sts" None;
         GetCallerIdentity (inl EndpointConnectionError);
         Print "An error occurred while retrieving the current role ARN: Could not connect to the endpoint URL";
         Boto3Client "iam" None;
         GetRole "TestRole" (inl EndpointConnectionError);
         Print "An error occurred: Could not connect to the endpoint URL";
         Boto3Client "sts" None;
         GetCallerIdentity (inl EndpointConnectionError);
         Print "An error occurred while retrieving the current account ID: Could not connect to the endpoint URL";
         Boto3Client "sts" None;
         AssumeRole "arn:aws:iam::None:role/TestRole" "TestRoleSession"
           (inl EndpointConnectionError)]).
Proof.
  repeat apply conj; reflexivity.
Qed.

(** ** Granting twice *)

Lemma stored_app (name : string) (h tr : history) (current : option pyval) :
  stored name (h ++ tr) current = stored name tr (stored name h current).
Proof.
  revert current. induction h as [|ev h IH]; intros current; [reflexivity|].
  destruct ev as [| | |n [d] [e|]| | |]; simpl; apply IH.
Qed.

Lemma count_allow_app (a : string) (l1 l2 : list pyval) :
  count_allow a (l1 ++ l2) = count_allow a l1 + count_allow a l2.
Proof. unfold count_allow. rewrite filter_app. apply length_app. Qed.

Lemma count_allow_new_statement (a : string) :
  count_allow a [new_statement (Some a)] = 1.
Proof.
  unfold count_allow, allow_mentions, mentions. simpl.
  rewrite is_substring_refl. reflexivity.
Qed.

Lemma count_allow_existsb (a : string) (sts : list pyval) :
  existsb (allow_mentions a) sts = negb (Nat.eqb (count_allow a sts) 0).
Proof.
  unfold count_allow. induction sts as [|s sts IH]; simpl; [reflexivity|].
  destruct (allow_mentions a s); simpl; [reflexivity | exact IH].
Qed.

Lemma decide_update_write (arn : option string) (d d' : pyval) :
  decide_update arn d = inr (Some d') ->
  exists sts,
    statements_of d = Some sts
    /\ scan arn sts = inr false
    /\ d' = py_rebind d "Statement" (PList (sts ++ [new_statement arn])).
Proof.
  intros H. destruct (statements_of d) as [sts|] eqn:E.
  - exists sts. rewrite (decide_update_statements arn d sts E) in H.
    destruct (scan arn sts) as [e|[|]]; try discriminate H.
    injection H as <-. repeat split.
  - destruct (decide_update_no_statement_list arn d E) as [e [He _]]. congruence.
Qed.

(** One grant against the mock, for a role whose statements the loop can
    read. *)
Lemma mock_grant (m : mock) (role a : string) (h : history) (d : pyval)
    (sts : list pyval) :
  mock_update m = None ->
  trust_policy_of m h role = Some d ->
  statements_of d = Some sts ->
  forallb scannable sts = true ->
  exists tr,
    update_trust_policy (mock_env m) role (Some a) h = (inr tt, h ++ tr)
    /\ (if existsb (allow_mentions a) sts
        then no_write tr /\ trust_policy_of m (h ++ tr) role = Some d
        else trust_policy_of m (h ++ tr) role
             = Some (py_rebind d "Statement" (PList (sts ++ [new_statement (Some a)])))).
Proof.
  intros Hu Hd Hsts Hall.
  exists (update_trace (mock_env m) role (Some a) h).
  split; [apply update_trust_policy_run; reflexivity|].
  assert (Hd1 : trust_policy_of m (h ++ [Boto3Client "iam" None]) role = Some d).
  { unfold trust_policy_of in *. rewrite stored_app, Hd. reflexivity. }
  unfold update_trace. cbv zeta. cbn [mock_env get_role_r update_assume_role_policy_r].
  rewrite Hd1. cbn [AssumeRolePolicyDocument Role].
  rewrite (decide_update_statements _ _ _ Hsts), (scan_scannable a sts Hall).
  cbn [and_then].
  destruct (existsb (allow_mentions a) sts).
  - split; [reflexivity|].
    unfold trust_policy_of in *. rewrite stored_app, Hd. reflexivity.
  - rewrite Hu.
    assert (Hd2 : trust_policy_of m ((h ++ [Boto3Client "iam" None])
                    ++ [GetRole role (inr {| Role := {| AssumeRolePolicyDocument := d |} |})])
                    role = Some d).
    { unfold trust_policy_of in *. rewrite stored_app, stored_app, Hd. reflexivity. }
    rewrite Hd2.
    unfold trust_policy_of in *. rewrite stored_app, Hd.
    cbn [stored updated_lines]. rewrite String.eqb_refl. reflexivity.
Qed.

(** C2, as the script has it.  The updater never creates a duplicate: in
    any environment, a document [update_trust_policy] writes has exactly one
    Allow statement that mentions the ARN.  And against a service that
    works, for a role whose statements the loop can read and of which at
    most one is an Allow statement that mentions the ARN, two grants in a
    row leave exactly one such statement, and the second grant writes
    nothing. *)
Theorem grant_twice_leaves_one_statement (role a : string) :
  (forall aws h tr d u,
     client_r aws h "iam" = None ->
     snd (update_trust_policy aws role (Some a) h) = h ++ tr ->
     In (UpdateAssumeRolePolicy role (json_dumps d) u) tr ->
     exists sts, statements_of d = Some sts /\ count_allow a sts = 1)
  /\ (forall m h d sts,
     mock_update m = None ->
     trust_policy_of m h role = Some d ->
     statements_of d = Some sts ->
     forallb scannable sts = true ->
     count_allow a sts <= 1 ->
     exists tr1 tr2,
       grant_twice (mock_env m) role (Some a) h = (h ++ tr1, (h ++ tr1) ++ tr2)
       /\ no_write tr2
       /\ matching_after m ((h ++ tr1) ++ tr2) role a = Some 1).
Proof.
  split.
  - intros aws h tr d u Hc Hrun Hin.
    rewrite (update_trust_policy_run aws role (Some a) h Hc) in Hrun. cbn [snd] in Hrun.
    apply app_inv_head in Hrun. subst tr.
    unfold update_trace, updated_lines, json_dumps in Hin. cbv zeta in Hin.
    destruct (get_role_r aws (h ++ [Boto3Client "iam" None]) role) as [e|response];
      [split_in|].
    destruct (decide_update (Some a) (AssumeRolePolicyDocument (Role response)))
      as [e|[d0|]] eqn:D; [split_in| |split_in].
    destruct (decide_update_write _ _ _ D) as [sts [Hsts [Hscan Hd0]]].
    assert (Hd : d = d0).
    { destruct (update_assume_role_policy_r aws _ role (JsonText d0)); split_in; reflexivity. }
    exists (sts ++ [new_statement (Some a)]). split.
    + rewrite Hd, Hd0. exact (statements_of_rebind _ _ _ Hsts).
    + rewrite count_allow_app, (scan_false a sts Hscan), count_allow_new_statement.
      reflexivity.
  - intros m h d sts Hu Hd Hsts Hall Hcount.
    destruct (mock_grant m role a h d sts Hu Hd Hsts Hall) as [tr1 [Hrun1 Hafter1]].
    pose proof (count_allow_existsb a sts) as Hex.
    destruct (existsb (allow_mentions a) sts) eqn:E.
    + destruct Hafter1 as [_ Hd1].
      destruct (mock_grant m role a (h ++ tr1) d sts Hu Hd1 Hsts Hall) as [tr2 [Hrun2 Hafter2]].
      rewrite E in Hafter2. destruct Hafter2 as [Hnw Hd2].
      exists tr1, tr2. unfold grant_twice. rewrite Hrun1. cbn [snd]. rewrite Hrun2.
      split; [reflexivity|]. split; [exact Hnw|].
      unfold matching_after. rewrite Hd2, Hsts. cbn [option_map]. f_equal.
      destruct (count_allow a sts) as [|[|n]]; [discriminate Hex | reflexivity | lia].
    + pose proof (statements_of_rebind d sts (sts ++ [new_statement (Some a)]) Hsts) as Hsts'.
      assert (Hall' : forallb scannable (sts ++ [new_statement (Some a)]) = true).
      { rewrite forallb_app, Hall. reflexivity. }
      destruct (mock_grant m role a (h ++ tr1) _ _ Hu Hafter1 Hsts' Hall')
        as [tr2 [Hrun2 Hafter2]].
      assert (E' : existsb (allow_mentions a) (sts ++ [new_statement (Some a)]) = true).
      { rewrite count_allow_existsb, count_allow_app, count_allow_new_statement.
        rewrite Nat.add_comm. reflexivity. }
      rewrite E' in Hafter2. destruct Hafter2 as [Hnw Hd2].
      exists tr1, tr2. unfold grant_twice. rewrite Hrun1. cbn [snd]. rewrite Hrun2.
      split; [reflexivity|]. split; [exact Hnw|].
      unfold matching_after. rewrite Hd2, Hsts'. cbn [option_map]. f_equal.
      rewrite count_allow_app, count_allow_new_statement.
      destruct (count_allow a sts); [reflexivity | discriminate Hex].
Qed.

Lemma grant_twice_leaves_one_statement_example :
  let m := working "TestRole" (policy []) in
  let aws := mock_env m in
  let granted := policy [allow_statement (PStr Developer) "sts:AssumeRole"] in
  (mock_update m = None
   /\ trust_policy_of m [] "TestRole" = Some (policy [])
   /\ statements_of (policy []) = Some []
   /\ forallb scannable [] = true
   /\ count_allow Developer [] <= 1)
  /\ (exists tr1 tr2,
        grant_twice aws "TestRole" (Some Developer) [] = ([] ++ tr1, ([] ++ tr1) ++ tr2)
        /\ no_write tr2
        /\ matching_after m (([] ++ tr1) ++ tr2) "TestRole" Developer = Some 1)
  /\ (In (UpdateAssumeRolePolicy "TestRole" (json_dumps granted) None)
         (snd (update_trust_policy aws "TestRole" (Some Developer) []))
      /\ exists sts, statements_of granted = Some sts /\ count_allow Developer sts = 1).
Proof.
  intros m aws granted.
  split; [repeat apply conj; try reflexivity; exact (le_S 0 0 (le_n 0))|].
  split.
  - exact (proj2 (grant_twice_leaves_one_statement "TestRole" Developer)
             m [] (policy []) [] eq_refl eq_refl eq_refl eq_refl (le_S 0 0 (le_n 0))).
  - assert (Hin : In (UpdateAssumeRolePolicy "TestRole" (json_dumps granted) None)
                     (snd (update_trust_policy aws "TestRole" (Some Developer) []))).
    { right. right. left. reflexivity. }
    split; [exact Hin|].
    exact (proj1 (grant_twice_leaves_one_statement "TestRole" Developer)
             aws [] (snd (update_trust_policy aws "TestRole" (Some Developer) []))
             granted None eq_refl eq_refl Hin).
Defined.

(** C2 as the claim has it fails.  A role whose trust policy grants the
    principal in two Allow statements keeps both after two grants, and a
    role whose trust policy has no ["Statement"] has no Allow statement for
    the principal after two grants; neither grant writes. *)
Lemma grant_twice_does_not_leave_one_statement :
  let m := working "TestRole" granted_twice in
  let h := grant_twice (mock_env m) "TestRole" (Some Developer) [] in
  let m' := working "TestRole" (PDict [("Version", PStr "2012-10-17")]) in
  let h' := grant_twice (mock_env m') "TestRole" (Some Developer) [] in
  (trust_policy_of m (snd h) "TestRole" = Some granted_twice
   /\ matching_after m (snd h) "TestRole" Developer = Some 2
   /\ no_write (snd h))
  /\ (trust_policy_of m' (snd h') "TestRole" = Some (PDict [("Version", PStr "2012-10-17")])
      /\ matching_after m' (snd h') "TestRole" Developer = None
      /\ no_write (snd h')
      /\ last (snd h') (Sleep 0) = Print "An error occurred: 'Statement'").
Proof.
  repeat apply conj; reflexivity.
Qed.

(** ** The whole flow against a service that works *)

(** A target role with an empty trust policy: the grant writes one Allow
    statement for the caller's ARN, and [assume_role] is called with the
    session name ["TestRoleSession"] and returns the credentials. *)
Example auto_assume_end_to_end :
  let m := working "TestRole" (policy []) in
  let run := auto_assume (mock_env m) "TestRole" [] in
  fst run = inr (Some (Credentials temporary))
  /\ trust_policy_of m (snd run) "TestRole"
     = Some (policy [allow_statement (PStr Developer) "sts:AssumeRole"])
  /\ In (AssumeRole "arn:aws:iam::123456789012:role/TestRole" "TestRoleSession"
           (inr temporary)) (snd run).
Proof.
  repeat apply conj; try reflexivity.
  simpl. do 11 right. left. reflexivity.
Qed.

(** * Further properties of the script *)

(** ** When the grant is taken as present *)

Lemma prefix_split (s t : string) :
  String.prefix s t = true -> exists post, t = (s ++ post)%string.
Proof.
  revert t. induction s as [|c s IH]; intros t H.
  - exists t. reflexivity.
  - destruct t as [|c' t]; [discriminate H|].
    simpl in H. destruct (Ascii.ascii_dec c c') as [<-|]; [|discriminate H].
    destruct (IH t H) as [post ->]. exists post. reflexivity.
Qed.

Lemma is_substring_split (s t : string) :
  is_substring s t = true -> exists pre post, t = (pre ++ s ++ post)%string.
Proof.
  induction t as [|c t IH]; cbn [is_substring]; intros H.
  - destruct (String.prefix s "") eqn:E; [|discriminate H].
    destruct (prefix_split s "" E) as [post Hp]. exists "", post. exact Hp.
  - destruct (String.prefix s (String c t)) eqn:E.
    + destruct (prefix_split s _ E) as [post Hp]. exists "", post. exact Hp.
    + destruct (IH H) as [pre [post ->]]. exists (String c pre), post. reflexivity.
Qed.

Lemma existsb_arn_eq_in (a : string) (l : list pyval) :
  existsb (arn_eq (Some a)) l = true -> In (PStr a) l.
Proof.
  intros H. apply existsb_exists in H. destruct H as [x [Hin Hx]].
  destruct x as [| | |t| |]; try discriminate Hx.
  simpl in Hx. apply String.eqb_eq in Hx. subst t. exact Hin.
Qed.

Lemma allow_mentions_grants (a : string) (s : pyval) :
  allow_mentions a s = true <-> grants a s.
Proof.
  unfold allow_mentions, grants, mentions. split.
  - intros H. apply andb_prop in H. destruct H as [He Hm]. split; [exact He|].
    destruct (principal_aws s) as [[| | |t|l|]|]; try discriminate Hm.
    + left. destruct (is_substring_split a t Hm) as [pre [post ->]].
      exists pre, post. reflexivity.
    + right. exists l. split; [reflexivity | exact (existsb_arn_eq_in a l Hm)].
  - intros [He [[pre [post Hp]]|[l [Hp Hl]]]]; rewrite He, Hp; cbn [andb].
    + apply is_substring_occurs.
    + apply existsb_arn_eq, Hl.
Qed.

(** X1.  For a fetched document whose statements the loop can read,
    [update_trust_policy] leaves the policy alone exactly when some Allow
    statement has the ARN inside its string [Principal.AWS] or among the
    elements of its list [Principal.AWS]; in every other case it calls
    [update_assume_role_policy]. *)
Theorem update_trust_policy_writes_iff (aws : env) (role a : string) (h : history)
    (response : GetRoleResponse) (sts : list pyval) :
  client_r aws h "iam" = None ->
  get_role_r aws (h ++ [Boto3Client "iam" None]) role = inr response ->
  statements_of (AssumeRolePolicyDocument (Role response)) = Some sts ->
  forallb scannable sts = true ->
  exists tr,
    update_trust_policy aws role (Some a) h = (inr tt, h ++ tr)
    /\ (no_write tr <-> exists s, In s sts /\ grants a s).
Proof.
  intros Hc Hg Hsts Hall.
  exists (update_trace aws role (Some a) h).
  split; [exact (update_trust_policy_run aws role (Some a) h Hc)|].
  unfold update_trace. cbv zeta.
  rewrite Hg, (decide_update_statements _ _ _ Hsts), (scan_scannable a sts Hall).
  cbn [and_then].
  destruct (existsb (allow_mentions a) sts) eqn:E.
  - split; [intros _ | intros _; reflexivity].
    apply existsb_exists in E. destruct E as [s [Hin Hs]].
    exists s. split; [exact Hin | apply allow_mentions_grants, Hs].
  - split; [intros H; discriminate H|].
    intros [s [Hin Hs]]. apply allow_mentions_grants in Hs.
    assert (Ht : existsb (allow_mentions a) sts = true)
      by (apply existsb_exists; exists s; split; assumption).
    congruence.
Qed.

Lemma update_trust_policy_writes_iff_example :
  let listed := allow_statement (PList [PStr "arn:aws:iam::123456789012:role/TestRole"])
                  "sts:AssumeRole" in
  let aws := mock_env (working "Target" (policy [listed])) in
  let response := {| Role := {| AssumeRolePolicyDocument := policy [listed] |} |} in
  exists tr,
    update_trust_policy aws "Target" (Some "arn:aws:iam::123456789012:role/Test") []
      = (inr tt, [] ++ tr)
    /\ (no_write tr
        <-> exists s, In s [listed] /\ grants "arn:aws:iam::123456789012:role/Test" s).
Proof.
  intros listed aws response.
  exact (update_trust_policy_writes_iff aws "Target" "arn:aws:iam::123456789012:role/Test"
           [] response [listed] eq_refl eq_refl eq_refl eq_refl).
Defined.

(** ** What a write contains *)

Lemma assoc_rebind_other (k k0 : string) (v : pyval) (kvs : list (string * pyval)) :
  k <> k0 -> assoc k (rebind k0 v kvs) = assoc k kvs.
Proof.
  intros Hk. induction kvs as [|[k' v'] kvs IH]; simpl; [reflexivity|].
  destruct (String.eqb k0 k') eqn:E; simpl.
  - apply String.eqb_eq in E. subst k'.
    apply String.eqb_neq in Hk. rewrite Hk. reflexivity.
  - rewrite IH. reflexivity.
Qed.

Lemma keys_rebind (k : string) (v : pyval) (kvs : list (string * pyval)) :
  map fst (rebind k v kvs) = map fst kvs.
Proof.
  induction kvs as [|[k' v'] kvs IH]; simpl; [reflexivity|].
  destruct (String.eqb k k'); simpl; [reflexivity | rewrite IH; reflexivity].
Qed.

(** X2.  Whatever the service answers and whatever the ARN is, a document
    [update_trust_policy] sends to [update_assume_role_policy] goes to the
    target role and is the fetched document with one statement more: the
    statement list is the fetched one followed by the new Allow statement,
    the keys are the same in the same order, and every other key keeps its
    value. *)
Theorem update_trust_policy_write_keeps_document (aws : env) (role : string)
    (arn : option string) (h tr : history) (name : string) (text : json_text)
    (u : option exn) :
  client_r aws h "iam" = None ->
  snd (update_trust_policy aws role arn h) = h ++ tr ->
  In (UpdateAssumeRolePolicy name text u) tr ->
  name = role
  /\ exists response sts d',
       get_role_r aws (h ++ [Boto3Client "iam" None]) role = inr response
       /\ text = json_dumps d'
       /\ statements_of (AssumeRolePolicyDocument (Role response)) = Some sts
       /\ statements_of d' = Some (sts ++ [new_statement arn])
       /\ keys d' = keys (AssumeRolePolicyDocument (Role response))
       /\ (forall k, k <> "Statement" ->
           field k d' = field k (AssumeRolePolicyDocument (Role response))).
Proof.
  intros Hc Hrun Hin.
  rewrite (update_trust_policy_run aws role arn h Hc) in Hrun. cbn [snd] in Hrun.
  apply app_inv_head in Hrun. subst tr.
  unfold update_trace, updated_lines in Hin. cbv zeta in Hin.
  destruct (get_role_r aws (h ++ [Boto3Client "iam" None]) role) as [e|response];
    [split_in|].
  destruct (decide_update arn (AssumeRolePolicyDocument (Role response)))
    as [e|[d0|]] eqn:D; [split_in| |split_in].
  destruct (decide_update_write _ _ _ D) as [sts [Hsts [_ Hd0]]].
  assert (Hev : name = role /\ text = JsonText d0).
  { destruct (update_assume_role_policy_r aws _ role (JsonText d0)); split_in;
      split; reflexivity. }
  destruct Hev as [-> ->].
  split; [reflexivity|].
  exists response, sts, d0.
  split; [reflexivity|]. split; [reflexivity|]. split; [exact Hsts|].
  split; [rewrite Hd0; exact (statements_of_rebind _ _ _ Hsts)|].
  rewrite Hd0. unfold statements_of in Hsts.
  destruct (AssumeRolePolicyDocument (Role response)) as [| | | | |kvs];
    try discriminate Hsts.
  split.
  - apply keys_rebind.
  - intros k Hk. apply assoc_rebind_other, Hk.
Qed.

Lemma update_trust_policy_write_keeps_document_example :
  let old := PDict [("Version", PStr "2012-10-17");
                    ("Statement", PList [deny_statement (PStr Developer) "sts:AssumeRole"]);
                    ("Id", PStr "trust")] in
  let aws := mock_env (working "TestRole" old) in
  let new := PDict [("Version", PStr "2012-10-17");
                    ("Statement", PList [deny_statement (PStr Developer) "sts:AssumeRole";
                                         new_statement (Some Developer)]);
                    ("Id", PStr "trust")] in
  In (UpdateAssumeRolePolicy "TestRole" (json_dumps new) None)
     (snd (update_trust_policy aws "TestRole" (Some Developer) []))
  /\ exists response sts d',
       get_role_r aws ([] ++ [Boto3Client "iam" None]) "TestRole" = inr response
       /\ json_dumps new = json_dumps d'
       /\ statements_of (AssumeRolePolicyDocument (Role response)) = Some sts
       /\ statements_of d' = Some (sts ++ [new_statement (Some Developer)])
       /\ keys d' = keys (AssumeRolePolicyDocument (Role response))
       /\ (forall k, k <> "Statement" ->
           field k d' = field k (AssumeRolePolicyDocument (Role response))).
Proof.
  intros old aws new.
  assert (Hin : In (UpdateAssumeRolePolicy "TestRole" (json_dumps new) None)
                   (snd (update_trust_policy aws "TestRole" (Some Developer) []))).
  { right. right. left. reflexivity. }
  split; [exact Hin|].
  exact (proj2 (update_trust_policy_write_keeps_document aws "TestRole" (Some Developer) []
                  (snd (update_trust_policy aws "TestRole" (Some Developer) []))
                  "TestRole" (json_dumps new) None eq_refl eq_refl Hin)).
Defined.

(** ** What [update_trust_policy] touches *)

(** X3.  Once the IAM client exists, a run of [update_trust_policy] is made
    of IAM calls for the target role, output, and the ten-second sleep: it
    fetches the role exactly once, writes at most once, and never calls
    STS. *)
Theorem update_trust_policy_footprint (aws : env) (role : string) (arn : option string)
    (h : history) :
  client_r aws h "iam" = None ->
  exists tr,
    update_trust_policy aws role arn h = (inr tt, h ++ tr)
    /\ forallb (iam_event_for role) tr = true
    /\ length (filter is_get_role tr) = 1
    /\ length (filter is_update_assume_role_policy tr) <= 1.
Proof.
  intros Hc. exists (update_trace aws role arn h).
  split; [exact (update_trust_policy_run aws role arn h Hc)|].
  unfold update_trace, updated_lines. cbv zeta.
  destruct (get_role_r aws (h ++ [Boto3Client "iam" None]) role) as [e|response].
  { cbn. rewrite String.eqb_refl. repeat split; lia. }
  destruct (decide_update arn (AssumeRolePolicyDocument (Role response))) as [e|[d|]].
  - cbn. rewrite String.eqb_refl. repeat split; lia.
  - destruct (update_assume_role_policy_r aws _ role (JsonText d));
      cbn; rewrite String.eqb_refl; repeat split; lia.
  - cbn. rewrite String.eqb_refl. repeat split; lia.
Qed.

Lemma update_trust_policy_footprint_example :
  let aws := mock_env (working "TestRole" (policy [])) in
  exists tr,
    update_trust_policy aws "TestRole" (Some Developer) [] = (inr tt, [] ++ tr)
    /\ forallb (iam_event_for "TestRole") tr = true
    /\ length (filter is_get_role tr) = 1
    /\ length (filter is_update_assume_role_policy tr) <= 1.
Proof.
  intros aws.
  exact (update_trust_policy_footprint aws "TestRole" (Some Developer) [] eq_refl).
Defined.

(** X4.  [update_trust_policy] waits the ten seconds exactly when its write
    succeeded, and the wait is then the last thing it does: a run that found
    the grant present, or in which anything raised, does not sleep. *)
Theorem update_trust_policy_sleeps_after_write (aws : env) (role : string)
    (arn : option string) (h : history) :
  client_r aws h "iam" = None ->
  exists tr,
    update_trust_policy aws role arn h = (inr tt, h ++ tr)
    /\ ((exists text, In (UpdateAssumeRolePolicy role text None) tr) <-> In (Sleep 10) tr)
    /\ (forall seconds, In (Sleep seconds) tr ->
        seconds = 10%Z /\ last tr (Print "") = Sleep 10).
Proof.
  intros Hc. exists (update_trace aws role arn h).
  split; [exact (update_trust_policy_run aws role arn h Hc)|].
  unfold update_trace, updated_lines. cbv zeta.
  destruct (get_role_r aws (h ++ [Boto3Client "iam" None]) role) as [e|response].
  { split; [split; [intros [text H] | intros H] | intros seconds H]; split_in. }
  destruct (decide_update arn (AssumeRolePolicyDocument (Role response))) as [e|[d|]].
  - split; [split; [intros [text H] | intros H] | intros seconds H]; split_in.
  - destruct (update_assume_role_policy_r aws _ role (JsonText d)).
    + split; [split; [intros [text H] | intros H] | intros seconds H]; split_in.
    + split; [split; [intros _ | intros _] | intros seconds H].
      * do 5 right. left. reflexivity.
      * exists (JsonText d). right. right. left. reflexivity.
      * split_in. split; reflexivity.
  - split; [split; [intros [text H] | intros H] | intros seconds H]; split_in.
Qed.

Lemma update_trust_policy_sleeps_after_write_example :
  let aws := mock_env (working "TestRole" (policy [])) in
  exists tr,
    update_trust_policy aws "TestRole" (Some Developer) [] = (inr tt, [] ++ tr)
    /\ ((exists text, In (UpdateAssumeRolePolicy "TestRole" text None) tr)
        <-> In (Sleep 10) tr)
    /\ (forall seconds, In (Sleep seconds) tr ->
        seconds = 10%Z /\ last tr (Print "") = Sleep 10).
Proof.
  intros aws.
  exact (update_trust_policy_sleeps_after_write aws "TestRole" (Some Developer) [] eq_refl).
Defined.

(** ** The calls of [auto_assume], in order *)

Lemma remote_calls_lookup (aws : env) (what : string) (h : history) :
  client_r aws h "sts" = None ->
  remote_calls (lookup_trace aws what h)
  = [GetCallerIdentity (get_caller_identity_r aws (h ++ [Boto3Client "sts" None]))].
Proof.
  intros Hc. unfold lookup_trace. rewrite Hc. cbv zeta.
  destruct (get_caller_identity_r aws (h ++ [Boto3Client "sts" None])); reflexivity.
Qed.

Lemma remote_calls_update (aws : env) (role : string) (arn : option string) (h : history) :
  exists g w,
    remote_calls (update_trace aws role arn h) = GetRole role g :: w
    /\ (w = []
        \/ exists d u sts,
             w = [UpdateAssumeRolePolicy role (json_dumps d) u]
             /\ statements_of d = Some (sts ++ [new_statement arn])).
Proof.
  unfold update_trace, updated_lines. cbv zeta.
  destruct (get_role_r aws (h ++ [Boto3Client "iam" None]) role) as [e|response].
  { eexists. exists []. split; [reflexivity | left; reflexivity]. }
  destruct (decide_update arn (AssumeRolePolicyDocument (Role response)))
    as [e|[d|]] eqn:D.
  - eexists. exists []. split; [reflexivity | left; reflexivity].
  - destruct (decide_update_write _ _ _ D) as [sts [Hsts [_ Hd]]].
    set (u := update_assume_role_policy_r aws
                ((h ++ [Boto3Client "iam" None]) ++ [GetRole role (inr response)])
                role (JsonText d)).
    exists (inr response), [UpdateAssumeRolePolicy role (json_dumps d) u]. split.
    + destruct u; reflexivity.
    + right. exists d, u, sts. split; [reflexivity|].
      rewrite Hd. exact (statements_of_rebind _ _ _ Hsts).
  - eexists. exists []. split; [reflexivity | left; reflexivity].
Qed.

Lemma remote_calls_assume (aws : env) (role_arn : string) (h : history) :
  remote_calls (assume_trace aws role_arn h)
  = [AssumeRole role_arn "TestRoleSession"
       (assume_role_r aws (h ++ [Boto3Client "sts" None]) role_arn "TestRoleSession")].
Proof.
  unfold assume_trace. cbv zeta.
  destruct (assume_role_r aws (h ++ [Boto3Client "sts" None]) role_arn "TestRoleSession")
    as [e|]; [destruct (is_ClientError e)|]; reflexivity.
Qed.

(** One run of [auto_assume], when the clients can be created. *)
Lemma auto_assume_run (aws : env) (role : string) (h : history) :
  (forall h' service, client_r aws h' service = None) ->
  let r1 := get_caller_identity_r aws (h ++ [Boto3Client "sts" None]) in
  let h1 := h ++ lookup_trace aws role_arn_error h in
  let h2 := h1 ++ update_trace aws role (option_map Arn (identity_of r1)) h1 in
  let r2 := get_caller_identity_r aws (h2 ++ [Boto3Client "sts" None]) in
  let h3 := h2 ++ lookup_trace aws account_id_error h2 in
  auto_assume aws role h
  = (assume_result (assume_role_r aws (h3 ++ [Boto3Client "sts" None])
                      (role_arn_from r2 role) "TestRoleSession"),
     h3 ++ assume_trace aws (role_arn_from r2 role) h3).
Proof.
  intros Hc r1 h1 h2 r2 h3.
  assert (L1 : sts_lookup aws h = r1) by (unfold sts_lookup; rewrite Hc; reflexivity).
  assert (L2 : sts_lookup aws h2 = r2) by (unfold sts_lookup; rewrite Hc; reflexivity).
  unfold auto_assume, bind.
  rewrite get_current_role_arn_run, L1. fold h1.
  replace (match r1 with inr identity => Some (Arn identity) | inl _ => None end)
    with (option_map Arn (identity_of r1)) by (destruct r1; reflexivity).
  rewrite (update_trust_policy_run aws role _ h1 (Hc _ _)). fold h2.
  rewrite construct_role_arn_run, L2. fold h3.
  replace ("arn:aws:iam::"
           ++ fmt (match r2 with inr identity => Some (Account identity) | inl _ => None end)
           ++ ":role/" ++ role)%string
    with (role_arn_from r2 role) by (destruct r2; reflexivity).
  rewrite (assume_role_run aws _ h3 (Hc _ _)).
  destruct (assume_result _); reflexivity.
Qed.

(** X5.  When the clients can be created, the remote calls of [auto_assume]
    are, in this order: [get_caller_identity], [get_role] for the target
    role, at most one [update_assume_role_policy] for it,
    [get_caller_identity] again, and [assume_role] with the session name
    ["TestRoleSession"].  The identity is looked up twice: the principal of
    the statement a write appends comes from the first answer, the account
    id in the ARN that is assumed from the second.  What [auto_assume]
    returns is what [assume_role] makes of the last answer. *)
Theorem auto_assume_sequence (aws : env) (role : string) (h : history) :
  (forall h' service, client_r aws h' service = None) ->
  exists tr r1 g w r2 r,
    auto_assume aws role h = (assume_result r, h ++ tr)
    /\ remote_calls tr
       = GetCallerIdentity r1 :: GetRole role g :: w
         ++ [GetCallerIdentity r2; AssumeRole (role_arn_from r2 role) "TestRoleSession" r]
    /\ (w = []
        \/ exists d u sts,
             w = [UpdateAssumeRolePolicy role (json_dumps d) u]
             /\ statements_of d
                = Some (sts ++ [new_statement (option_map Arn (identity_of r1))])).
Proof.
  intros Hc.
  pose proof (auto_assume_run aws role h Hc) as Hrun. cbv zeta in Hrun.
  set (r1 := get_caller_identity_r aws (h ++ [Boto3Client "sts" None])) in *.
  set (h1 := h ++ lookup_trace aws role_arn_error h) in *.
  set (arn := option_map Arn (identity_of r1)) in *.
  set (h2 := h1 ++ update_trace aws role arn h1) in *.
  set (r2 := get_caller_identity_r aws (h2 ++ [Boto3Client "sts" None])) in *.
  set (h3 := h2 ++ lookup_trace aws account_id_error h2) in *.
  set (r := assume_role_r aws (h3 ++ [Boto3Client "sts" None]) (role_arn_from r2 role)
              "TestRoleSession") in *.
  destruct (remote_calls_update aws role arn h1) as [g [w [Hw Hshape]]].
  exists (lookup_trace aws role_arn_error h ++ update_trace aws role arn h1
          ++ lookup_trace aws account_id_error h2
          ++ assume_trace aws (role_arn_from r2 role) h3), r1, g, w, r2, r.
  split.
  { rewrite Hrun. unfold h3, h2, h1. rewrite <- !app_assoc. reflexivity. }
  split; [|exact Hshape].
  unfold remote_calls in *. rewrite !filter_app.
  fold (remote_calls (lookup_trace aws role_arn_error h)).
  fold (remote_calls (lookup_trace aws account_id_error h2)).
  fold (remote_calls (assume_trace aws (role_arn_from r2 role) h3)).
  rewrite (remote_calls_lookup aws _ h (Hc _ _)), (remote_calls_lookup aws _ h2 (Hc _ _)),
    remote_calls_assume, Hw.
  reflexivity.
Qed.

Lemma auto_assume_sequence_example :
  let aws := mock_env (working "TestRole" (policy [])) in
  (forall h' service, client_r aws h' service = None)
  /\ exists tr r1 g w r2 r,
       auto_assume aws "TestRole" [] = (assume_result r, [] ++ tr)
       /\ remote_calls tr
          = GetCallerIdentity r1 :: GetRole "TestRole" g :: w
            ++ [GetCallerIdentity r2;
                AssumeRole (role_arn_from r2 "TestRole") "TestRoleSession" r]
       /\ (w = []
           \/ exists d u sts,
                w = [UpdateAssumeRolePolicy "TestRole" (json_dumps d) u]
                /\ statements_of d
                   = Some (sts ++ [new_statement (option_map Arn (identity_of r1))])).
Proof.
  intros aws. split; [intros h' service; reflexivity|].
  exact (auto_assume_sequence aws "TestRole" [] (fun _ _ => eq_refl)).
Defined.

(** ** The whole flow against the mock *)

Lemma stored_no_write (name : string) (tr : history) (current : option pyval) :
  no_write tr -> stored name tr current = current.
Proof.
  unfold no_write. revert current.
  induction tr as [|ev tr IH]; intros current H; [reflexivity|].
  destruct ev; simpl in H; try discriminate H; simpl; apply IH; exact H.
Qed.

Lemma no_write_lookup_trace (aws : env) (what : string) (h : history) :
  no_write (lookup_trace aws what h).
Proof.
  unfold no_write, lookup_trace.
  destruct (client_r aws h "sts"); [reflexivity|]. cbv zeta.
  destruct (get_caller_identity_r aws (h ++ [Boto3Client "sts" None])); reflexivity.
Qed.

Lemma no_write_assume_trace (aws : env) (role_arn : string) (h : history) :
  no_write (assume_trace aws role_arn h).
Proof.
  unfold no_write, assume_trace. cbv zeta.
  destruct (assume_role_r aws (h ++ [Boto3Client "sts" None]) role_arn "TestRoleSession")
    as [e|]; [destruct (is_ClientError e)|]; reflexivity.
Qed.

(** X6.  Against a service that works (the caller is known, the role
    exists with statements the loop can read, writes succeed, and the role
    can be assumed), [auto_assume] returns the credentials of the answer to
    [assume_role] for ["arn:aws:iam::<account>:role/<role>"], and leaves the
    role's statement list either as it was or with the one new statement at
    its end, so that afterwards at least one Allow statement mentions the
    caller's ARN: as many as before when there were some, one when there
    were none. *)
Theorem auto_assume_grants_and_assumes (m : mock) (role : string) (h : history)
    (identity : Identity) (d : pyval) (sts : list pyval) (assumed : AssumeRoleResponse) :
  mock_identity m = inr identity ->
  mock_update m = None ->
  trust_policy_of m h role = Some d ->
  statements_of d = Some sts ->
  forallb scannable sts = true ->
  mock_assume m ("arn:aws:iam::" ++ Account identity ++ ":role/" ++ role) = inr assumed ->
  fst (auto_assume (mock_env m) role h) = inr (Some (Credentials assumed))
  /\ matching_after m (snd (auto_assume (mock_env m) role h)) role (Arn identity)
     = Some (Nat.max 1 (count_allow (Arn identity) sts))
  /\ exists d',
       trust_policy_of m (snd (auto_assume (mock_env m) role h)) role = Some d'
       /\ (statements_of d' = Some sts
           \/ statements_of d' = Some (sts ++ [new_statement (Some (Arn identity))])).
Proof.
  intros Hi Hu Hd Hsts Hall Ha.
  set (a := Arn identity).
  set (h1 := h ++ lookup_trace (mock_env m) role_arn_error h).
  assert (L : forall h', sts_lookup (mock_env m) h' = inr identity)
    by (intros h'; unfold sts_lookup; cbn; exact Hi).
  assert (Hd1 : trust_policy_of m h1 role = Some d).
  { unfold trust_policy_of, h1 in *.
    rewrite stored_app, Hd. apply stored_no_write, no_write_lookup_trace. }
  destruct (mock_grant m role a h1 d sts Hu Hd1 Hsts Hall) as [tr [Hrun Hafter]].
  set (h2 := h1 ++ tr) in *.
  set (h3 := h2 ++ lookup_trace (mock_env m) account_id_error h2).
  set (role_arn := ("arn:aws:iam::" ++ Account identity ++ ":role/" ++ role)%string) in *.
  assert (Hrun' : auto_assume (mock_env m) role h
                  = (inr (Some (Credentials assumed)),
                     h3 ++ assume_trace (mock_env m) role_arn h3)).
  { unfold auto_assume, bind.
    rewrite get_current_role_arn_run, (L h). fold h1. fold a.
    rewrite Hrun. fold h2.
    rewrite construct_role_arn_run, (L h2). cbn [fmt]. fold role_arn. fold h3.
    rewrite (assume_role_run (mock_env m) role_arn h3 eq_refl).
    cbn [mock_env assume_role_r]. rewrite Ha. reflexivity. }
  rewrite Hrun'. cbn [fst snd].
  assert (Hp : trust_policy_of m (h3 ++ assume_trace (mock_env m) role_arn h3) role
               = trust_policy_of m h2 role).
  { unfold trust_policy_of, h3. rewrite !stored_app.
    rewrite (stored_no_write _ _ _ (no_write_assume_trace _ _ _)).
    rewrite (stored_no_write _ _ _ (no_write_lookup_trace _ _ _)).
    reflexivity. }
  split; [reflexivity|].
  unfold matching_after. rewrite Hp.
  pose proof (count_allow_existsb a sts) as Hex.
  destruct (existsb (allow_mentions a) sts).
  - destruct Hafter as [_ Hd2]. rewrite Hd2, Hsts. cbn [option_map]. split.
    + f_equal. destruct (count_allow a sts) as [|n]; [discriminate Hex | reflexivity].
    + exists d. split; [reflexivity | left; exact Hsts].
  - rewrite Hafter.
    rewrite (statements_of_rebind d sts (sts ++ [new_statement (Some a)]) Hsts).
    cbn [option_map]. split.
    + f_equal. rewrite count_allow_app, count_allow_new_statement.
      destruct (count_allow a sts); [reflexivity | discriminate Hex].
    + eexists. split; [reflexivity|]. right.
      exact (statements_of_rebind d sts _ Hsts).
Qed.

Lemma auto_assume_grants_and_assumes_example :
  let m := working "TestRole" (policy [deny_statement (PStr Developer) "sts:AssumeRole"]) in
  fst (auto_assume (mock_env m) "TestRole" []) = inr (Some (Credentials temporary))
  /\ matching_after m (snd (auto_assume (mock_env m) "TestRole" [])) "TestRole" Developer
     = Some 1.
Proof.
  intros m.
  destruct (auto_assume_grants_and_assumes m "TestRole" [] caller
              (policy [deny_statement (PStr Developer) "sts:AssumeRole"])
              [deny_statement (PStr Developer) "sts:AssumeRole"] temporary
              eq_refl eq_refl eq_refl eq_refl eq_refl eq_refl) as [H1 [H2 _]].
  split; [exact H1 | exact H2].
Defined.

(** ** A grant for [None] *)

Lemma allows_None_string (s : pyval) (t : string) :
  has_effect "Allow" s = true ->
  principal_aws s = Some (PStr t) ->
  exists e, allows None s = inl e.
Proof.
  unfold has_effect, effect_of, principal_aws, allows.
  destruct s as [| | | | |kvs]; try discriminate. cbn [py_get and_then].
  destruct (assoc "Effect" kvs) as [[| | |e| |]|]; try discriminate.
  intros He. cbn [py_eq_str]. rewrite He.
  destruct (assoc "Principal" kvs) as [[| | | | |p]|]; try discriminate.
  cbn [py_get and_then]. intros Hp. rewrite Hp. eexists. reflexivity.
Qed.

Lemma scan_None_string (sts : list pyval) (s : pyval) (t : string) :
  In s sts ->
  has_effect "Allow" s = true ->
  principal_aws s = Some (PStr t) ->
  scan None sts <> inr false.
Proof.
  intros Hin He Hp. induction sts as [|x sts IH]; [destruct Hin|].
  cbn [scan]. destruct (allows None x) as [e|[|]] eqn:E; cbn [and_then]; try discriminate.
  destruct Hin as [->|Hin]; [|exact (IH Hin)].
  destruct (allows_None_string s t He Hp) as [e He']. congruence.
Qed.

(** X7.  When [update_trust_policy] is called with [None] for the ARN and
    some Allow statement of the fetched document has a string as its
    [Principal.AWS], nothing is written: [None in <string>] raises, unless
    an earlier statement has already ended the loop. *)
Theorem update_trust_policy_None_string_principal (aws : env) (role : string)
    (h : history) (response : GetRoleResponse) (sts : list pyval) (s : pyval)
    (t : string) :
  client_r aws h "iam" = None ->
  get_role_r aws (h ++ [Boto3Client "iam" None]) role = inr response ->
  statements_of (AssumeRolePolicyDocument (Role response)) = Some sts ->
  In s sts ->
  has_effect "Allow" s = true ->
  principal_aws s = Some (PStr t) ->
  exists tr,
    update_trust_policy aws role None h = (inr tt, h ++ tr)
    /\ no_write tr
    /\ (sts = [s] ->
        tr = [Boto3Client "iam" None; GetRole role (inr response);
              Print "An error occurred: 'in <string>' requires string as left operand, not NoneType"]).
Proof.
  intros Hc Hg Hsts Hin He Hp.
  exists (update_trace aws role None h).
  split; [exact (update_trust_policy_run aws role None h Hc)|].
  unfold update_trace. cbv zeta. rewrite Hg, (decide_update_statements _ _ _ Hsts).
  pose proof (scan_None_string sts s t Hin He Hp) as Hscan.
  destruct (scan None sts) as [e|[|]] eqn:S; cbn [and_then].
  - split; [reflexivity|]. intros ->. cbn [scan] in S.
    unfold has_effect, effect_of, principal_aws in He, Hp. unfold allows in S.
    destruct s as [| | | | |kvs]; try discriminate He. cbn [py_get and_then] in S.
    destruct (assoc "Effect" kvs) as [[| | |eff| |]|]; try discriminate He.
    cbn [py_eq_str] in S. rewrite He in S.
    destruct (assoc "Principal" kvs) as [[| | | | |p]|]; try discriminate Hp.
    cbn [py_get and_then] in S. rewrite Hp in S. cbn in S.
    injection S as <-. reflexivity.
  - split; [reflexivity|]. intros ->. cbn [scan] in S.
    destruct (allows_None_string s t He Hp) as [e He']. rewrite He' in S. discriminate S.
  - exfalso. apply Hscan. reflexivity.
Qed.

Lemma update_trust_policy_None_string_principal_example :
  let s := allow_statement (PStr "arn:aws:iam::123456789012:root") "sts:AssumeRole" in
  let aws := mock_env (working "TestRole" (policy [s])) in
  let response := {| Role := {| AssumeRolePolicyDocument := policy [s] |} |} in
  update_trust_policy aws "TestRole" None []
  = (inr tt, [Boto3Client "iam" None; GetRole "TestRole" (inr response);
              Print "An error occurred: 'in <string>' requires string as left operand, not NoneType"]).
Proof.
  intros s aws response.
  destruct (update_trust_policy_None_string_principal aws "TestRole" [] response [s] s
              "arn:aws:iam::123456789012:root" eq_refl eq_refl eq_refl
              (or_introl eq_refl) eq_refl eq_refl) as [tr [H [_ Htr]]].
  rewrite H, (Htr eq_refl). reflexivity.
Defined.

Lemma allows_None_passes (s : pyval) :
  scannable s = true -> passes_None s = true -> allows None s = inr false.
Proof.
  unfold scannable, passes_None, has_effect, effect_of, principal_aws, allows.
  destruct s as [| | | | |kvs]; try discriminate. cbn [py_get and_then].
  destruct (assoc "Effect" kvs) as [[| | |e| |]|]; cbn [py_eq_str]; try reflexivity.
  destruct (String.eqb e "Allow"); [|reflexivity]. cbn [negb orb].
  destruct (assoc "Principal" kvs) as [[| | | | |p]|]; try discriminate;
    cbn [py_get and_then]; [|reflexivity].
  destruct (assoc "AWS" p) as [[| | |t|l|]|]; try discriminate; cbn [py_in].
  - intros _ H. apply negb_true_iff in H. rewrite H. reflexivity.
  - reflexivity.
Qed.

Lemma scan_None_passes (sts : list pyval) :
  forallb scannable sts = true -> forallb passes_None sts = true ->
  scan None sts = inr false.
Proof.
  induction sts as [|s sts IH]; [reflexivity|]. cbn [forallb scan].
  intros H1 H2. apply andb_prop in H1, H2. destruct H1 as [Hs H1], H2 as [Hp H2].
  rewrite (allows_None_passes s Hs Hp). cbn [and_then]. exact (IH H1 H2).
Qed.

(** X8.  When [update_trust_policy] is called with [None] for the ARN and
    no Allow statement of the fetched document has a string or a list with
    [None] in it as its [Principal.AWS], the loop finds nothing and the
    function calls [update_assume_role_policy] with a document whose new
    statement has [None] (JSON [null]) as its principal. *)
Theorem update_trust_policy_None_writes_null (aws : env) (role : string) (h : history)
    (response : GetRoleResponse) (sts : list pyval) :
  client_r aws h "iam" = None ->
  get_role_r aws (h ++ [Boto3Client "iam" None]) role = inr response ->
  statements_of (AssumeRolePolicyDocument (Role response)) = Some sts ->
  forallb scannable sts = true ->
  forallb passes_None sts = true ->
  exists d u rest,
    update_trust_policy aws role None h
      = (inr tt, h ++ Boto3Client "iam" None :: GetRole role (inr response)
                   :: UpdateAssumeRolePolicy role (json_dumps d) u :: rest)
    /\ statements_of d = Some (sts ++ [new_statement None])
    /\ principal_aws (new_statement None) = Some PNone.
Proof.
  intros Hc Hg Hsts Hall Hpass.
  rewrite (update_trust_policy_run aws role None h Hc).
  unfold update_trace. cbv zeta.
  rewrite Hg, (decide_update_statements _ _ _ Hsts), (scan_None_passes sts Hall Hpass).
  cbn [and_then].
  eexists. eexists. eexists.
  split; [reflexivity|].
  split; [exact (statements_of_rebind _ _ _ Hsts) | reflexivity].
Qed.

Lemma update_trust_policy_None_writes_null_example :
  let s := allow_statement (PList [PStr "arn:aws:iam::123456789012:root"]) "sts:AssumeRole" in
  let aws := mock_env (working "TestRole" (policy [s])) in
  let response := {| Role := {| AssumeRolePolicyDocument := policy [s] |} |} in
  exists d u rest,
    update_trust_policy aws "TestRole" None []
      = (inr tt, [] ++ Boto3Client "iam" None :: GetRole "TestRole" (inr response)
                   :: UpdateAssumeRolePolicy "TestRole" (json_dumps d) u :: rest)
    /\ statements_of d = Some ([s] ++ [new_statement None])
    /\ principal_aws (new_statement None) = Some PNone.
Proof.
  intros s aws response.
  exact (update_trust_policy_None_writes_null aws "TestRole" [] response [s]
           eq_refl eq_refl eq_refl eq_refl eq_refl).
Defined.

(** ** A client that cannot be created *)

(** X9.  [boto3.client] is called outside the [try] in
    [update_trust_policy] and in [assume_role]: when it raises, the
    exception leaves the function before any remote call, and nothing is
    printed.  In [auto_assume] a failure to create the IAM client therefore
    ends the run right after the identity lookup, with neither [get_role]
    nor [assume_role] called. *)
Theorem client_failure_escapes (aws : env) (role role_arn : string)
    (arn : option string) (h : history) (e : exn) :
  (client_r aws h "iam" = Some e ->
   update_trust_policy aws role arn h = (inl e, h ++ [Boto3Client "iam" (Some e)]))
  /\ (client_r aws h "sts" = Some e ->
      assume_role aws role_arn h = (inl e, h ++ [Boto3Client "sts" (Some e)]))
  /\ (client_r aws (h ++ lookup_trace aws role_arn_error h) "iam" = Some e ->
      auto_assume aws role h
      = (inl e, h ++ lookup_trace aws role_arn_error h ++ [Boto3Client "iam" (Some e)])).
Proof.
  repeat apply conj.
  - intros Hc. unfold update_trust_policy, bind, boto3_client. rewrite Hc. reflexivity.
  - intros Hc. unfold assume_role, bind, boto3_client. rewrite Hc. reflexivity.
  - intros Hc. unfold auto_assume, bind. rewrite get_current_role_arn_run.
    unfold update_trust_policy, bind, boto3_client. rewrite Hc.
    rewrite <- app_assoc. reflexivity.
Qed.

Lemma client_failure_escapes_example :
  update_trust_policy no_client "TestRole" (Some Developer) []
    = (inl EndpointConnectionError, [Boto3Client "iam" (Some EndpointConnectionError)])
  /\ assume_role no_client "arn:aws:iam::123456789012:role/TestRole" []
    = (inl EndpointConnectionError, [Boto3Client "sts" (Some EndpointConnectionError)])
  /\ auto_assume no_iam_client "TestRole" []
    = (inl EndpointConnectionError,
       [Boto3Client "sts" None; GetCallerIdentity (inr caller);
        Boto3Client "iam" (Some EndpointConnectionError)]).
Proof.
  destruct (client_failure_escapes no_client "TestRole"
              "arn:aws:iam::123456789012:role/TestRole" (Some Developer) []
              EndpointConnectionError) as [H1 [H2 _]].
  destruct (client_failure_escapes no_iam_client "TestRole"
              "arn:aws:iam::123456789012:role/TestRole" (Some Developer) []
              EndpointConnectionError) as [_ [_ H3]].
  split; [exact (H1 eq_refl)|]. split; [exact (H2 eq_refl)|]. exact (H3 eq_refl).
Defined.

(** ** [assume_role] *)

(** X10.  Once the STS client exists, [assume_role] makes exactly one
    [assume_role] call, for the ARN it was given and with the session name
    ["TestRoleSession"], and never calls IAM.  It returns credentials
    exactly when the call answers, and they are the answer's; it returns
    [None] exactly when the call raises a [ClientError], which is also the
    only case in which it prints; it raises exactly when the call raises
    something else. *)
Theorem assume_role_outcomes (aws : env) (role_arn : string) (h : history) :
  client_r aws h "sts" = None ->
  exists tr r,
    assume_role aws role_arn h = (assume_result r, h ++ tr)
    /\ filter is_assume_role tr = [AssumeRole role_arn "TestRoleSession" r]
    /\ forallb (sts_event_for role_arn) tr = true
    /\ (forall credentials,
          assume_result r = inr (Some credentials)
          <-> exists assumed_role, r = inr assumed_role
                                   /\ Credentials assumed_role = credentials)
    /\ (assume_result r = inr None <-> exists e, r = inl e /\ is_ClientError e = true)
    /\ (existsb is_print tr = true <-> exists e, r = inl e /\ is_ClientError e = true)
    /\ (forall e, assume_result r = inl e <-> r = inl e /\ is_ClientError e = false).
Proof.
  intros Hc.
  exists (assume_trace aws role_arn h),
    (assume_role_r aws (h ++ [Boto3Client "sts" None]) role_arn "TestRoleSession").
  split; [exact (assume_role_run aws role_arn h Hc)|].
  unfold assume_trace, assume_result. cbv zeta.
  destruct (assume_role_r aws (h ++ [Boto3Client "sts" None]) role_arn "TestRoleSession")
    as [e|assumed_role].
  - destruct (is_ClientError e) eqn:E; cbn; rewrite String.eqb_refl; cbn.
    + split; [reflexivity|]. split; [reflexivity|].
      split; [intros c; split; [intros H; discriminate H
                               | intros [a [H _]]; discriminate H]|].
      split; [split; [intros _; exists e; split; [reflexivity | exact E] | reflexivity]|].
      split; [split; [intros _; exists e; split; [reflexivity | exact E] | reflexivity]|].
      intros e'. split; [intros H; discriminate H|].
      intros [H H']. injection H as <-. congruence.
    + split; [reflexivity|]. split; [reflexivity|].
      split; [intros c; split; [intros H; discriminate H
                               | intros [a [H _]]; discriminate H]|].
      split; [split; [intros H; discriminate H
                     | intros [e' [H H']]; injection H as <-; congruence]|].
      split; [split; [intros H; discriminate H
                     | intros [e' [H H']]; injection H as <-; congruence]|].
      intros e'. split.
      * intros H. injection H as <-. split; [reflexivity | exact E].
      * intros [H _]. injection H as <-. reflexivity.
  - cbn. rewrite String.eqb_refl. cbn.
    split; [reflexivity|]. split; [reflexivity|].
    split.
    { intros c. split.
      - intros H. injection H as <-. exists assumed_role. split; reflexivity.
      - intros [a [H <-]]. injection H as <-. reflexivity. }
    split; [split; [intros H; discriminate H | intros [e [H _]]; discriminate H]|].
    split; [split; [intros H; discriminate H | intros [e [H _]]; discriminate H]|].
    intros e. split; [intros H; discriminate H | intros [H _]; discriminate H].
Qed.

Lemma assume_role_outcomes_example :
  let aws := mock_env (identity_down "TestRole" (policy [])) in
  exists tr r,
    assume_role aws "arn:aws:iam::123456789012:role/TestRole" [] = (assume_result r, [] ++ tr)
    /\ filter is_assume_role tr
       = [AssumeRole "arn:aws:iam::123456789012:role/TestRole" "TestRoleSession" r]
    /\ forallb (sts_event_for "arn:aws:iam::123456789012:role/TestRole") tr = true
    /\ (forall credentials,
          assume_result r = inr (Some credentials)
          <-> exists assumed_role, r = inr assumed_role
                                   /\ Credentials assumed_role = credentials)
    /\ (assume_result r = inr None <-> exists e, r = inl e /\ is_ClientError e = true)
    /\ (existsb is_print tr = true <-> exists e, r = inl e /\ is_ClientError e = true)
    /\ (forall e, assume_result r = inl e <-> r = inl e /\ is_ClientError e = false).
Proof.
  intros aws.
  exact (assume_role_outcomes aws "arn:aws:iam::123456789012:role/TestRole" [] eq_refl).
Defined.

(** ** The identity lookups *)

(** X11.  [get_current_account_id] and [get_current_role_arn] never raise,
    whatever the service does and even when the STS client cannot be
    created: they return the account id, respectively the ARN, of the
    caller when the lookup answers, and [None] otherwise.  They print
    exactly when they return [None], call [get_caller_identity] at most
    once, and make no other remote call. *)
Theorem identity_lookups_never_raise (aws : env) (h : history) :
  exists tr1 tr2,
    get_current_account_id aws h
      = (inr (option_map Account (identity_of (sts_lookup aws h))), h ++ tr1)
    /\ get_current_role_arn aws h
      = (inr (option_map Arn (identity_of (sts_lookup aws h))), h ++ tr2)
    /\ (existsb is_print tr1 = true <-> identity_of (sts_lookup aws h) = None)
    /\ (existsb is_print tr2 = true <-> identity_of (sts_lookup aws h) = None)
    /\ remote_calls tr1 = filter is_get_caller_identity tr1
    /\ remote_calls tr2 = filter is_get_caller_identity tr2
    /\ length (remote_calls tr1) <= 1
    /\ length (remote_calls tr2) <= 1.
Proof.
  exists (lookup_trace aws account_id_error h), (lookup_trace aws role_arn_error h).
  rewrite get_current_account_id_run, get_current_role_arn_run.
  unfold sts_lookup, lookup_trace.
  destruct (client_r aws h "sts") as [e|].
  - cbn. repeat split; try reflexivity; try lia.
  - cbv zeta.
    destruct (get_caller_identity_r aws (h ++ [Boto3Client "sts" None])) as [e|identity];
      cbn; repeat split; try reflexivity; try lia; intros H; discriminate H.
Qed.

(** ** The ARN builder *)

Lemma append_cancel (s a b : string) : (s ++ a)%string = (s ++ b)%string -> a = b.
Proof.
  induction s as [|c s IH]; simpl; intros H; [exact H|].
  injection H as H. exact (IH H).
Qed.

(** X12.  [construct_role_arn] never raises, and from one state of the
    service two different role names give two different ARNs: the role name
    is put into the ARN as it is. *)
Theorem construct_role_arn_injective (aws : env) (h : history) (name1 name2 : string) :
  (exists arn1, fst (construct_role_arn aws name1 h) = inr arn1)
  /\ (name1 <> name2 ->
      fst (construct_role_arn aws name1 h) <> fst (construct_role_arn aws name2 h)).
Proof.
  rewrite !construct_role_arn_run. cbn [fst]. split; [eexists; reflexivity|].
  intros Hne H. apply Hne. injection H as H.
  apply (append_cancel ":role/").
  apply (append_cancel (fmt (match sts_lookup aws h with
                             | inr identity => Some (Account identity)
                             | inl _ => None
                             end))).
  exact H.
Qed.

Lemma construct_role_arn_injective_example :
  "TestRole" <> "TestRole2"
  /\ fst (construct_role_arn unreachable "TestRole" [])
     <> fst (construct_role_arn unreachable "TestRole2" []).
Proof.
  assert (Hne : "TestRole" <> "TestRole2") by (intros H; discriminate H).
  split; [exact Hne|].
  exact (proj2 (construct_role_arn_injective unreachable [] "TestRole" "TestRole2") Hne).
Defined.

(** ** The order of the statements *)

Lemma allow_mentions_scannable (a : string) (s : pyval) :
  allow_mentions a s = true -> scannable s = true.
Proof.
  unfold allow_mentions, mentions, has_effect, effect_of, principal_aws, scannable.
  destruct s as [| | | | |kvs]; try discriminate.
  intros H. apply andb_prop in H. destruct H as [_ H].
  destruct (assoc "Principal" kvs) as [[| | | | |p]|]; try discriminate H.
  destruct (assoc "AWS" p) as [[| | |t|l|]|]; try discriminate H; reflexivity.
Qed.

Lemma scan_readable_prefix (a : string) (pre rest : list pyval) :
  forallb scannable pre = true ->
  scan (Some a) (pre ++ rest)
  = if existsb (allow_mentions a) pre then inr true else scan (Some a) rest.
Proof.
  induction pre as [|x pre IH]; [reflexivity|]. cbn [forallb app scan existsb].
  intros H. apply andb_prop in H. destruct H as [Hx Hpre].
  rewrite (allows_scannable a x Hx). cbn [and_then].
  destruct (allow_mentions a x); [reflexivity | exact (IH Hpre)].
Qed.

(** X13.  The loop returns at the first statement that passes its test and
    reads nothing after it: when the statements before an Allow statement
    that mentions the ARN are ones the loop can read, the run is the
    "already allowed" one whatever comes after that statement, readable or
    not. *)
Theorem scan_stops_at_first_match (aws : env) (role a : string) (h : history)
    (response : GetRoleResponse) (pre post : list pyval) (s : pyval) :
  client_r aws h "iam" = None ->
  get_role_r aws (h ++ [Boto3Client "iam" None]) role = inr response ->
  statements_of (AssumeRolePolicyDocument (Role response)) = Some (pre ++ s :: post) ->
  forallb scannable pre = true ->
  grants a s ->
  update_trust_policy aws role (Some a) h
  = (inr tt, h ++ [Boto3Client "iam" None; GetRole role (inr response);
                   Print (already_allowed_line role (Some a))]).
Proof.
  intros Hc Hg Hsts Hpre Hs. apply allow_mentions_grants in Hs.
  rewrite (update_trust_policy_run aws role (Some a) h Hc).
  unfold update_trace. cbv zeta.
  rewrite Hg, (decide_update_statements _ _ _ Hsts), (scan_readable_prefix a pre _ Hpre).
  assert (Hscan : (if existsb (allow_mentions a) pre then inr true
                   else scan (Some a) (s :: post)) = @inr exn bool true).
  { destruct (existsb (allow_mentions a) pre); [reflexivity|].
    cbn [scan]. rewrite (allows_scannable a s (allow_mentions_scannable a s Hs)), Hs.
    reflexivity. }
  rewrite Hscan. reflexivity.
Qed.

Lemma scan_stops_at_first_match_example :
  let s := allow_statement (PStr Developer) "sts:AssumeRole" in
  let d := policy [deny_statement (PStr Developer) "sts:TagSession"; s; PStr "not a statement"] in
  let aws := mock_env (working "TestRole" d) in
  grants Developer s
  /\ update_trust_policy aws "TestRole" (Some Developer) []
     = (inr tt, [Boto3Client "iam" None;
                 GetRole "TestRole" (inr {| Role := {| AssumeRolePolicyDocument := d |} |});
                 Print (already_allowed_line "TestRole" (Some Developer))]).
Proof.
  intros s d aws.
  assert (Hs : grants Developer s).
  { split; [reflexivity|]. left. exists "", "". reflexivity. }
  split; [exact Hs|].
  exact (scan_stops_at_first_match aws "TestRole" Developer []
           {| Role := {| AssumeRolePolicyDocument := d |} |}
           [deny_statement (PStr Developer) "sts:TagSession"] [PStr "not a statement"] s
           eq_refl eq_refl eq_refl eq_refl Hs).
Defined.

(** X14.  An Allow statement whose ["Principal"] is a string (such as
    ["*"]) stops the grant: when the statements before it are readable and
    none of them passes the test, [.get("AWS", [])] on the string raises,
    the error is printed and nothing is written, even if a later statement
    grants the ARN. *)
Theorem string_principal_stops_the_grant (aws : env) (role a : string) (h : history)
    (response : GetRoleResponse) (pre post : list pyval) (s : pyval) (p : string) :
  client_r aws h "iam" = None ->
  get_role_r aws (h ++ [Boto3Client "iam" None]) role = inr response ->
  statements_of (AssumeRolePolicyDocument (Role response)) = Some (pre ++ s :: post) ->
  forallb scannable pre = true ->
  existsb (allow_mentions a) pre = false ->
  has_effect "Allow" s = true ->
  field "Principal" s = Some (PStr p) ->
  update_trust_policy aws role (Some a) h
  = (inr tt, h ++ [Boto3Client "iam" None; GetRole role (inr response);
                   Print "An error occurred: 'str' object has no attribute 'get'"]).
Proof.
  intros Hc Hg Hsts Hpre Hnone He Hp.
  rewrite (update_trust_policy_run aws role (Some a) h Hc).
  unfold update_trace. cbv zeta.
  rewrite Hg, (decide_update_statements _ _ _ Hsts), (scan_readable_prefix a pre _ Hpre),
    Hnone.
  assert (Hs : allows (Some a) s = inl (no_attribute (PStr p) "get")).
  { unfold has_effect, effect_of, field in He, Hp. unfold allows.
    destruct s as [| | | | |kvs]; try discriminate He. cbn [py_get and_then].
    destruct (assoc "Effect" kvs) as [[| | |e| |]|]; try discriminate He.
    cbn [py_eq_str]. rewrite He, Hp. reflexivity. }
  cbn [scan]. rewrite Hs. reflexivity.
Qed.

Lemma string_principal_stops_the_grant_example :
  let s := PDict [("Effect", PStr "Allow"); ("Principal", PStr "*");
                  ("Action", PStr "sts:AssumeRole")] in
  let d := policy [s; allow_statement (PStr Developer) "sts:AssumeRole"] in
  let aws := mock_env (working "TestRole" d) in
  update_trust_policy aws "TestRole" (Some Developer) []
  = (inr tt, [Boto3Client "iam" None;
              GetRole "TestRole" (inr {| Role := {| AssumeRolePolicyDocument := d |} |});
              Print "An error occurred: 'str' object has no attribute 'get'"]).
Proof.
  intros s d aws.
  exact (string_principal_stops_the_grant aws "TestRole" Developer []
           {| Role := {| AssumeRolePolicyDocument := d |} |}
           [] [allow_statement (PStr Developer) "sts:AssumeRole"] s "*"
           eq_refl eq_refl eq_refl eq_refl eq_refl eq_refl eq_refl).
Defined.

(** ** Deny statements next to statements the loop cannot read *)


(** ** The orchestrator when the identity lookup fails, step by step *)

(** C1, as the script has it.  [auto_assume] does not look at what
    [get_current_role_arn] returned.  When the identity lookup fails and the
    clients can be created, [get_current_role_arn] returns [None], and the
    run of [auto_assume] is: [update_trust_policy] with [None] as the ARN,
    which returns normally, then [construct_role_arn], then [assume_role] on
    the ARN that was built.  Its remote calls are, in this order: the failed
    [get_caller_identity], [get_role] for the target role, at most one
    [update_assume_role_policy] for it (whose new statement has [None] as its
    principal), [get_caller_identity] again, and [assume_role] with the
    session name ["TestRoleSession"] on the ARN built from that second
    answer.  What [auto_assume] returns is what [assume_role] makes of the
    last answer: [None] when it is a [ClientError]. *)
Theorem auto_assume_goes_on_without_identity (aws : env) (role : string) (h : history)
    (e : exn) :
  (forall h' service, client_r aws h' service = None) ->
  sts_lookup aws h = inl e ->
  let h1 := snd (get_current_role_arn aws h) in
  let h2 := snd (update_trust_policy aws role None h1) in
  let h3 := snd (construct_role_arn aws role h2) in
  exists role_arn tr g w r2 r,
    fst (get_current_role_arn aws h) = inr None
    /\ fst (update_trust_policy aws role None h1) = inr tt
    /\ fst (construct_role_arn aws role h2) = inr role_arn
    /\ role_arn = role_arn_from r2 role
    /\ auto_assume aws role h = assume_role aws role_arn h3
    /\ auto_assume aws role h = (assume_result r, h ++ tr)
    /\ remote_calls tr
       = GetCallerIdentity (inl e) :: GetRole role g :: w
         ++ [GetCallerIdentity r2; AssumeRole role_arn "TestRoleSession" r]
    /\ (w = []
        \/ exists d u sts,
             w = [UpdateAssumeRolePolicy role (json_dumps d) u]
             /\ statements_of d = Some (sts ++ [new_statement None])).
Proof.
  intros Hc He. cbv zeta.
  assert (L : forall h', sts_lookup aws h'
                         = get_caller_identity_r aws (h' ++ [Boto3Client "sts" None]))
    by (intros h'; unfold sts_lookup; rewrite Hc; reflexivity).
  pose proof (auto_assume_run aws role h Hc) as Hrun. cbv zeta in Hrun.
  rewrite <- (L h), He in Hrun. cbn [identity_of option_map] in Hrun.
  rewrite get_current_role_arn_run, He. cbn [fst snd].
  set (h1 := h ++ lookup_trace aws role_arn_error h) in *.
  rewrite (update_trust_policy_run aws role None h1 (Hc _ _)). cbn [fst snd].
  set (h2 := h1 ++ update_trace aws role None h1) in *.
  rewrite construct_role_arn_run, (L h2). cbn [fst snd].
  set (r2 := get_caller_identity_r aws (h2 ++ [Boto3Client "sts" None])) in *.
  set (h3 := h2 ++ lookup_trace aws account_id_error h2) in *.
  set (r := assume_role_r aws (h3 ++ [Boto3Client "sts" None]) (role_arn_from r2 role)
              "TestRoleSession") in *.
  destruct (remote_calls_update aws role None h1) as [g [w [Hw Hshape]]].
  exists (role_arn_from r2 role),
    (lookup_trace aws role_arn_error h ++ update_trace aws role None h1
     ++ lookup_trace aws account_id_error h2
     ++ assume_trace aws (role_arn_from r2 role) h3), g, w, r2, r.
  split; [reflexivity|]. split; [reflexivity|].
  split; [destruct r2; reflexivity|]. split; [reflexivity|].
  split; [rewrite Hrun, (assume_role_run aws _ h3 (Hc _ _)); reflexivity|].
  split; [rewrite Hrun; unfold h3, h2, h1; rewrite <- !app_assoc; reflexivity|].
  split; [|exact Hshape].
  unfold remote_calls in *. rewrite !filter_app.
  fold (remote_calls (lookup_trace aws role_arn_error h)).
  fold (remote_calls (lookup_trace aws account_id_error h2)).
  fold (remote_calls (assume_trace aws (role_arn_from r2 role) h3)).
  rewrite (remote_calls_lookup aws _ h (Hc _ _)), (remote_calls_lookup aws _ h2 (Hc _ _)),
    remote_calls_assume, Hw, <- (L h), He.
  reflexivity.
Qed.

Lemma auto_assume_goes_on_without_identity_example :
  let aws := mock_env (identity_down "TestRole" (policy [])) in
  let h1 := snd (get_current_role_arn aws []) in
  let h2 := snd (update_trust_policy aws "TestRole" None h1) in
  let h3 := snd (construct_role_arn aws "TestRole" h2) in
  (forall h' service, client_r aws h' service = None)
  /\ sts_lookup aws [] = inl EndpointConnectionError
  /\ exists role_arn tr g w r2 r,
       fst (get_current_role_arn aws []) = inr None
       /\ fst (update_trust_policy aws "TestRole" None h1) = inr tt
       /\ fst (construct_role_arn aws "TestRole" h2) = inr role_arn
       /\ role_arn = role_arn_from r2 "TestRole"
       /\ auto_assume aws "TestRole" [] = assume_role aws role_arn h3
       /\ auto_assume aws "TestRole" [] = (assume_result r, [] ++ tr)
       /\ remote_calls tr
          = GetCallerIdentity (inl EndpointConnectionError) :: GetRole "TestRole" g :: w
            ++ [GetCallerIdentity r2; AssumeRole role_arn "TestRoleSession" r]
       /\ (w = []
           \/ exists d u sts,
                w = [UpdateAssumeRolePolicy "TestRole" (json_dumps d) u]
                /\ statements_of d = Some (sts ++ [new_statement None])).
Proof.
  intros aws h1 h2 h3.
  split; [intros h' service; reflexivity|].
  split; [reflexivity|].
  exact (auto_assume_goes_on_without_identity aws "TestRole" [] EndpointConnectionError
           (fun _ _ => eq_refl) eq_refl).
Defined.
